(** * Delta-radiomics extraction: a model of [src/ali/data_io.py]

    The development follows the Python module function by function:
    the string and path primitives it calls, the File Locator
    [_find_patient_ab_files], the row selection and delta computation in
    the body of [calculate_delta_radiomics], and the cohort loop with its
    [continue] / [try ... except Exception] control flow.

    Conventions of the model.
    - Python [str] is [string]; characters are single bytes (ASCII file
      names and labels), and [str.upper] is the ASCII upper-casing.
    - [os.path] is the POSIX one (separator [/]).
    - Numbers held by a pandas Series are IEEE binary64 values, the
      kernel's [float]; a missing value is NaN, as in pandas.  The
      numeric cells of a sheet are floating-point cells: a selected row
      whose cells are all integers, which pandas keeps as int64, is not
      represented.
    - [DataFrame.from_dict(_, orient="index")] is the one of pandas 3:
      every key of the dictionary is a row key of the table.
    - Dictionaries keyed by patient or by feature are [gmap string _].
    - The file system and the two text/number conversions of the Python
      runtime are fields of a [World] record. *)

From Stdlib Require Import Floats Ascii String.
From stdpp Require Import gmap strings list fin_maps sorting.

Local Open Scope string_scope.
Local Open Scope list_scope.

(** ** Python string primitives *)

Module PyStr.

(** [c.upper()] for one ASCII character. *)
Definition upper_ascii (c : Ascii.ascii) : Ascii.ascii :=
  let n := Ascii.nat_of_ascii c in
  if (97 <=? n)%nat && (n <=? 122)%nat then Ascii.ascii_of_nat (n - 32) else c.

(** [s.upper()] *)
Fixpoint upper (s : string) : string :=
  match s with
  | EmptyString => EmptyString
  | String c s' => String (upper_ascii c) (upper s')
  end.

(** [s.startswith(pre)] *)
Definition startswith (s pre : string) : bool := String.prefix pre s.

(** [s.endswith(suf)]: some suffix of [s] is [suf]. *)
Fixpoint endswith (s suf : string) : bool :=
  String.eqb s suf ||
  match s with
  | EmptyString => false
  | String _ s' => endswith s' suf
  end.

(** [sub in s]: literal substring test. *)
Fixpoint contains (sub s : string) : bool :=
  String.prefix sub s ||
  match s with
  | EmptyString => false
  | String _ s' => contains sub s'
  end.

(** Truth value of a [str]: the empty string is falsy. *)
Definition truthy (s : string) : bool := negb (String.eqb s "").

(** Truth value of a [str or None]. *)
Definition truthy_opt (o : option string) : bool :=
  match o with
  | None => false
  | Some s => truthy s
  end.

(** [a < b] on [str]: lexicographic on characters. *)
Definition lt (a b : string) : bool := String.ltb a b.

(** Insertion of one element into a list sorted with [<]; an element
    stays in front of the later elements it is equal to. *)
Fixpoint insert_sorted (x : string) (l : list string) : list string :=
  match l with
  | [] => [x]
  | y :: l' => if lt y x then y :: insert_sorted x l' else x :: y :: l'
  end.

(** [sorted(l)]: a stable sort that only uses [<]. *)
Definition sorted (l : list string) : list string :=
  foldr insert_sorted [] l.

(** [sorted(l)[0] if l else None] *)
Definition first_sorted (l : list string) : option string :=
  match l with
  | [] => None
  | _ :: _ => head (sorted l)
  end.

End PyStr.

(** ** [os.path.join] (posixpath, two arguments) *)

Definition path_join (a b : string) : string :=
  if PyStr.startswith b "/" then b
  else if String.eqb a "" || PyStr.endswith a "/" then a +:+ b
  else a +:+ "/" +:+ b.

(** ** Exceptions *)

(** The result of a call that may raise an [Exception]. *)
Inductive result (A : Type) : Type :=
  | Ok (a : A)
  | Raise.
Arguments Ok {A} a.
Arguments Raise {A}.

(** ** Loaded tables *)

(** A spreadsheet cell as [pd.read_excel] delivers it. *)
Inductive Cell : Type :=
  | CNum (x : float)
  | CStr (s : string)
  | CNull.

(** A loaded table: the header row and the data rows, each row holding
    one cell per column.  [read_excel] makes column names unique. *)
Record DataFrame : Type := mkDataFrame {
  columns : list string;
  rows : list (list Cell)
}.

(** ** The environment of a run *)

Record World : Type := mkWorld {
  (** [os.listdir(path)] *)
  listdir : string -> result (list string);
  (** [os.path.isdir(path)] *)
  isdir : string -> bool;
  (** [pd.read_excel(path)] *)
  read_excel : string -> result DataFrame;
  (** the string-to-float parser of [pd.to_numeric]; NaN when the text is
      not a number *)
  to_float : string -> float;
  (** [str(x)] for a float *)
  float_str : float -> string
}.

(** ** File Locator: [_find_patient_ab_files] *)

(** One iteration of the loop over the directory entries. *)
Definition scan_entry (patient_path : string)
    (acc : list string * list string) (filename : string)
    : list string * list string :=
  let '(a_candidates, b_candidates) := acc in
  let full_path := path_join patient_path filename in
  let upper_name := PyStr.upper filename in
  if negb (PyStr.endswith full_path ".xlsx") then acc
  else if PyStr.contains "_A" upper_name then
    (a_candidates ++ [full_path], b_candidates)
  else if PyStr.contains "_B" upper_name then
    (a_candidates, b_candidates ++ [full_path])
  else acc.

(** The candidate lists after the loop. *)
Definition scan_entries (patient_path : string) (filenames : list string)
    : list string * list string :=
  fold_left (scan_entry patient_path) filenames ([], []).

(** The function body once the directory has been listed. *)
Definition find_in_listing (patient_path : string) (filenames : list string)
    : option string * option string :=
  let '(a_candidates, b_candidates) := scan_entries patient_path filenames in
  (PyStr.first_sorted a_candidates, PyStr.first_sorted b_candidates).

Definition _find_patient_ab_files (w : World) (patient_path : string)
    : result (option string * option string) :=
  match listdir w patient_path with
  | Raise => Raise
  | Ok filenames => Ok (find_in_listing patient_path filenames)
  end.

(** The rules of the loop, entry by entry: the entry's name ends with the
    one recognised extension. *)
Definition eligible (filename : string) : bool :=
  PyStr.endswith filename ".xlsx".

(** An eligible entry whose upper-cased name holds the A marker. *)
Definition time_A_candidate (filename : string) : bool :=
  eligible filename && PyStr.contains "_A" (PyStr.upper filename).

(** An eligible entry without the A marker whose upper-cased name holds
    the B marker. *)
Definition time_B_candidate (filename : string) : bool :=
  eligible filename && negb (PyStr.contains "_A" (PyStr.upper filename))
  && PyStr.contains "_B" (PyStr.upper filename).

(** [slot] holds the path of an entry of the listing that satisfies
    [candidate], and no such entry has a smaller path; or it holds nothing
    and no entry of the listing satisfies [candidate]. *)
Definition least_candidate (candidate : string -> bool)
    (patient_path : string) (filenames : list string)
    (slot : option string) : Prop :=
  match slot with
  | Some path =>
      (exists f, f ∈ filenames /\ candidate f = true /\
                 path = path_join patient_path f) /\
      forall f, f ∈ filenames -> candidate f = true ->
        PyStr.lt (path_join patient_path f) path = false
  | None => forall f, f ∈ filenames -> candidate f = false
  end.

(** ** Regular expressions, as far as the selection tag needs them *)

Module Re.

(** A pattern element: a literal character, or [.] (any character but a
    newline). *)
Inductive atom : Type :=
  | Lit (c : Ascii.ascii)
  | Dot.

(** [re.compile(pat)] for a pattern whose only special character is [.];
    the selection tag is such a pattern. *)
Fixpoint compile (pat : string) : list atom :=
  match pat with
  | EmptyString => []
  | String c pat' =>
      (if Ascii.eqb c "."%char then Dot else Lit c) :: compile pat'
  end.

Definition atom_matches (a : atom) (c : Ascii.ascii) : bool :=
  match a with
  | Lit d => Ascii.eqb c d
  | Dot => negb (Ascii.eqb c "010"%char)
  end.

(** The pattern matches at the start of [s]. *)
Fixpoint match_here (p : list atom) (s : string) : bool :=
  match p with
  | [] => true
  | a :: p' =>
      match s with
      | EmptyString => false
      | String c s' => atom_matches a c && match_here p' s'
      end
  end.

(** [regex.search(s) is not None] *)
Fixpoint search (p : list atom) (s : string) : bool :=
  match_here p s ||
  match s with
  | EmptyString => false
  | String _ s' => search p s'
  end.

End Re.

(** ** Row Selector *)

Definition label_column : string := "Segmentation".
Definition selection_tag : string := "suv2.5".
Definition feature_start_col : nat := 23.

(** [name in df.columns] *)
Definition has_column (name : string) (df : DataFrame) : bool :=
  existsb (String.eqb name) (columns df).

(** Position of the column called [name]. *)
Fixpoint column_index (name : string) (cols : list string) : option nat :=
  match cols with
  | [] => None
  | c :: cols' =>
      if String.eqb c name then Some 0
      else S <$> column_index name cols'
  end.

(** [df[name]]: the cells of one column, top to bottom; [KeyError] when
    there is no such column. *)
Definition get_column (df : DataFrame) (name : string) : result (list Cell) :=
  match column_index name (columns df) with
  | None => Raise
  | Some j => Ok (map (fun r => nth j r CNull) (rows df))
  end.

(** [.astype(str)] on one cell: a missing value becomes the text [nan]. *)
Definition astype_str (w : World) (c : Cell) : string :=
  match c with
  | CStr s => s
  | CNum x => float_str w x
  | CNull => "nan"
  end.

(** [.str.contains(pat, na=False)] on one text: [pat] is a regular
    expression, searched for anywhere in the text. *)
Definition str_contains (pat s : string) : bool :=
  Re.search (Re.compile pat) s.

(** The tag test on one label cell:
    [.astype(str).str.contains("suv2.5", na=False)]. *)
Definition label_matches (w : World) (c : Cell) : bool :=
  str_contains selection_tag (astype_str w c).

(** [df["Segmentation"].astype(str).str.contains("suv2.5", na=False)] *)
Definition segmentation_mask (w : World) (df : DataFrame) : result (list bool) :=
  match get_column df label_column with
  | Raise => Raise
  | Ok col => Ok (map (label_matches w) col)
  end.

(** The claim's reading of the tag test: the text holds the tag as a
    literal substring. *)
Definition literal_tag_match (w : World) (c : Cell) : bool :=
  PyStr.contains selection_tag (astype_str w c).

(** The table has a row whose label matches the tag. *)
Definition has_tag_row (w : World) (df : DataFrame) : Prop :=
  exists j row,
    column_index label_column (columns df) = Some j /\
    row ∈ rows df /\
    label_matches w (nth j row CNull) = true.

(** [mask.any()] *)
Definition any (mask : list bool) : bool := existsb id mask.

(** [df.loc[mask]]: the rows whose mask entry is true, in order. *)
Definition loc_mask (df : DataFrame) (mask : list bool) : list (list Cell) :=
  map fst (List.filter snd (zip (rows df) mask)).

(** [df.loc[mask].iloc[0, start:]]: the first selected row from column
    [start] on, addressed by column name; [IndexError] when no row is
    selected. *)
Definition iloc_first_from (df : DataFrame) (mask : list bool) (start : nat)
    : result (list (string * Cell)) :=
  match loc_mask df mask with
  | [] => Raise
  | r :: _ => Ok (drop start (zip (columns df) r))
  end.

(** ** Delta Computer *)

(** [pd.to_numeric(_, errors="coerce")] on one cell. *)
Definition to_numeric_cell (w : World) (c : Cell) : float :=
  match c with
  | CNum x => x
  | CStr s => to_float w s
  | CNull => nan
  end.

(** [pd.to_numeric(row, errors="coerce")] *)
Definition to_numeric (w : World) (row : list (string * Cell))
    : list (string * float) :=
  map (fun kc => (kc.1, to_numeric_cell w kc.2)) row.

(** One label of [b - a]: the difference where both Series have the
    label, NaN where only one has it. *)
Definition sub_aligned (ob oa : option float) : option float :=
  match ob, oa with
  | Some b, Some a => Some (b - a)%float
  | Some _, None | None, Some _ => Some nan
  | None, None => None
  end.

(** [b - a] on two Series: aligned on the union of their labels. *)
Definition series_sub (b a : list (string * float)) : gmap string float :=
  merge sub_aligned (list_to_map b) (list_to_map a).

(** [.dropna()] *)
Definition dropna (s : gmap string float) : gmap string float :=
  filter (fun kv => is_nan kv.2 = false) s.

(** [series.dropna().to_dict()] for a Series held as a list. *)
Definition dropna_to_dict (s : list (string * float)) : gmap string float :=
  dropna (list_to_map s).

(** ** Output tables: [pd.DataFrame.from_dict(_, orient="index")] *)

(** pandas' [_from_nested_dict]: for a dict of dicts, [from_dict] swaps
    the two key levels before it builds the frame:
    [new_data[col][index] = v] for every [index, s] of the data and every
    [col, v] of [s]. *)
Definition _from_nested_dict (data : gmap string (gmap string float))
    : gmap string (gmap string float) :=
  map_fold (fun index s new_data =>
    map_fold (fun col v new_data =>
      <[col := <[index := v]> (default ∅ (new_data !! col))]> new_data)
      new_data s)
    ∅ data.

(** The value of a dict of dicts at two keys. *)
Definition nested_at (data : gmap string (gmap string float))
    (k1 k2 : string) : option float :=
  data !! k1 ≫= (fun inner : gmap string float => inner !! k2).

(** An output table: its row keys, and its columns, each holding the
    rows at which the column has a number.  Every other cell of the
    table is NaN. *)
Record Table : Type := mkTable {
  table_index : gset string;
  table_columns : gmap string (gmap string float)
}.

(** [pd.DataFrame.from_dict(data, orient="index")] on a dict of dicts:
    every key of the dict is a row key, also when its record is empty,
    and the columns are those of [_from_nested_dict]. *)
Definition from_dict_index (data : gmap string (gmap string float)) : Table :=
  mkTable (dom data) (_from_nested_dict data).

(** The row keys of an output table. *)
Definition df_index (df : Table) : gset string := table_index df.

(** The value of an output table at a column and a row key, where the
    cell holds a number. *)
Definition frame_at (df : Table) (col key : string) : option float :=
  nested_at (table_columns df) col key.

(** The row of an output table for one row key: the columns that have a
    number there. *)
Definition df_row (df : Table) (key : string) : gmap string float :=
  omap (fun column : gmap string float => column !! key) (table_columns df).

(** ** The cohort loop *)

(** What the run mutates: the three accumulating dictionaries, and the two
    things it does to the outside, the warnings it emits and the
    spreadsheets it opens, both in order. *)
Record RunState : Type := mkRunState {
  all_delta_radiomics : gmap string (gmap string float);
  A_radiomics : gmap string (gmap string float);
  B_radiomics : gmap string (gmap string float);
  warnings : list string;
  excel_reads : list string
}.

(** How a block of statements ends: it runs to its end, it hits
    [continue], or an exception leaves it. *)
Inductive outcome (A : Type) : Type :=
  | Normal (a : A)
  | Continue
  | Raised.
Arguments Normal {A} a.
Arguments Continue {A}.
Arguments Raised {A}.

(** Statements: state changes made before a [continue] or an exception
    stay made. *)
Definition M (A : Type) : Type := RunState -> RunState * outcome A.

#[export] Instance M_ret : MRet M := fun A a s => (s, Normal a).

#[export] Instance M_bind : MBind M := fun A B f m s =>
  match m s with
  | (s', Normal a) => f a s'
  | (s', Continue) => (s', Continue)
  | (s', Raised) => (s', Raised)
  end.

(** A call that may raise. *)
Definition call {A : Type} (r : result A) : M A := fun s =>
  (s, match r with Ok a => Normal a | Raise => Raised end).

Definition continue {A : Type} : M A := fun s => (s, Continue).

Definition raise {A : Type} : M A := fun s => (s, Raised).

(** [try: body except Exception: handler] *)
Definition try_except (body handler : M unit) : M unit := fun s =>
  match body s with
  | (s', Raised) => handler s'
  | r => r
  end.

(** [for x in l: body]: [continue] ends one iteration, an exception ends
    the loop. *)
Fixpoint for_each (body : string -> M unit) (l : list string) : M unit :=
  match l with
  | [] => mret tt
  | x :: l' => fun s =>
      match body x s with
      | (s', Raised) => (s', Raised)
      | (s', _) => for_each body l' s'
      end
  end.

(** [warnings.warn(msg)] *)
Definition warn (msg : string) : M unit := fun s =>
  (mkRunState (all_delta_radiomics s) (A_radiomics s) (B_radiomics s)
     (warnings s ++ [msg]) (excel_reads s), Normal tt).

(** [pd.read_excel(path)] with [path] a [str or None]. *)
Definition pd_read_excel (w : World) (path : option string) : M DataFrame :=
  match path with
  | None => raise
  | Some p => fun s =>
      (mkRunState (all_delta_radiomics s) (A_radiomics s) (B_radiomics s)
         (warnings s) (excel_reads s ++ [p]),
       match read_excel w p with Ok df => Normal df | Raise => Raised end)
  end.

(** The three assignments that store one patient's records. *)
Definition store_records (name : string) (delta a b : gmap string float)
    : M unit := fun s =>
  (mkRunState (<[name := delta]> (all_delta_radiomics s))
     (<[name := a]> (A_radiomics s)) (<[name := b]> (B_radiomics s))
     (warnings s) (excel_reads s), Normal tt).

(** The text of the warning for a patient with a Time A file only. *)
Definition warning_message (patient_folder_name : string) : string :=
  "Patient " +:+ patient_folder_name +:+
  " has Time A file but missing Time B file. Skipping.".

(** The body of the [try] block. *)
Definition try_body (w : World) (patient_folder_name : string)
    (file_A_path file_B_path : option string) : M unit :=
  df_A ← pd_read_excel w file_A_path;
  df_B ← pd_read_excel w file_B_path;
  if negb (has_column label_column df_A) || negb (has_column label_column df_B)
  then continue
  else
    mask_A ← call (segmentation_mask w df_A);
    mask_B ← call (segmentation_mask w df_B);
    if negb (any mask_A) || negb (any mask_B) then continue
    else
      row_A ← call (iloc_first_from df_A mask_A feature_start_col);
      row_B ← call (iloc_first_from df_B mask_B feature_start_col);
      let numeric_A := to_numeric w row_A in
      let numeric_B := to_numeric w row_B in
      let delta_radiomics := series_sub numeric_B numeric_A in
      store_records patient_folder_name (dropna delta_radiomics)
        (dropna_to_dict numeric_A) (dropna_to_dict numeric_B).

(** The body of the loop over the patient folders. *)
Definition loop_body (w : World) (data_folder_path patient_folder_name : string)
    : M unit :=
  let patient_path := path_join data_folder_path patient_folder_name in
  if negb (isdir w patient_path) then continue
  else
    files ← call (_find_patient_ab_files w patient_path);
    let file_A_path := files.1 in
    let file_B_path := files.2 in
    if PyStr.truthy_opt file_A_path && negb (PyStr.truthy_opt file_B_path)
    then warn (warning_message patient_folder_name);; continue
    else if PyStr.truthy_opt file_B_path && negb (PyStr.truthy_opt file_A_path)
    then continue
    else if negb (PyStr.truthy_opt file_A_path) && negb (PyStr.truthy_opt file_B_path)
    then continue
    else
      try_except (try_body w patient_folder_name file_A_path file_B_path)
        continue.

(** The state a run starts from. *)
Definition initial_state : RunState := mkRunState ∅ ∅ ∅ [] [].

(** The three [from_dict] calls and the [return]. *)
Definition build_tables
    : M (Table * Table * Table) := fun s =>
  let A_df := from_dict_index (A_radiomics s) in
  let B_df := from_dict_index (B_radiomics s) in
  let delta_df := from_dict_index (all_delta_radiomics s) in
  (s, Normal (delta_df, A_df, B_df)).

(** The statements of [calculate_delta_radiomics]; the value is
    [(delta_df, A_df, B_df)]. *)
Definition run_statements (w : World) (data_folder_path : string)
    : M (Table * Table * Table) :=
  names ← call (listdir w data_folder_path);
  for_each (loop_body w data_folder_path) (PyStr.sorted names);;
  build_tables.

Definition calculate_delta_radiomics (w : World) (data_folder_path : string)
    : RunState * outcome (Table * Table * Table) :=
  run_statements w data_folder_path initial_state.

(** ** One patient's iteration, read as functions *)

(** Lines 72-86 for one table: the selected feature row, when the table
    has the label column and a row that matches. *)
Definition row_selector (w : World) (df : DataFrame)
    : option (list (string * Cell)) :=
  if has_column label_column df then
    match segmentation_mask w df with
    | Ok mask =>
        if any mask then
          match iloc_first_from df mask feature_start_col with
          | Ok row => Some row
          | Raise => None
          end
        else None
    | Raise => None
    end
  else None.

(** The number a table gives for a feature: the cell of the selected row
    in that column, after numeric coercion (NaN included). *)
Definition selected_value (w : World) (df : DataFrame) (feature : string)
    : option float :=
  row_selector w df ≫= fun row =>
    (list_to_map (to_numeric w row) : gmap string float) !! feature.

(** The three records the [try] block stores for two file paths, when it
    reaches the assignments. *)
Definition patient_records (w : World) (file_A_path file_B_path : string)
    : option (gmap string float * gmap string float * gmap string float) :=
  match read_excel w file_A_path, read_excel w file_B_path with
  | Ok df_A, Ok df_B =>
      match row_selector w df_A, row_selector w df_B with
      | Some row_A, Some row_B =>
          let numeric_A := to_numeric w row_A in
          let numeric_B := to_numeric w row_B in
          Some (dropna (series_sub numeric_B numeric_A),
                dropna_to_dict numeric_A, dropna_to_dict numeric_B)
      | _, _ => None
      end
  | _, _ => None
  end.

(** The spreadsheets the [try] block opens: the Time B file only after
    the Time A file has loaded. *)
Definition reads_of_try (w : World) (file_A_path file_B_path : string)
    : list string :=
  match read_excel w file_A_path with
  | Ok _ => [file_A_path; file_B_path]
  | Raise => [file_A_path]
  end.

(** The pair of files of a patient folder, when the folder is a directory
    and the File Locator finds both. *)
Definition located_pair (w : World) (data_folder_path name : string)
    : option (string * string) :=
  let patient_path := path_join data_folder_path name in
  if isdir w patient_path then
    match _find_patient_ab_files w patient_path with
    | Ok (Some a, Some b) => Some (a, b)
    | _ => None
    end
  else None.

(** The records one iteration stores, if any. *)
Definition patient_result (w : World) (data_folder_path name : string)
    : option (gmap string float * gmap string float * gmap string float) :=
  match located_pair w data_folder_path name with
  | Some (a, b) => patient_records w a b
  | None => None
  end.

(** The folder is a directory that can be listed, or is not a directory
    at all: the File Locator does not raise on it. *)
Definition listable (w : World) (data_folder_path name : string) : Prop :=
  let patient_path := path_join data_folder_path name in
  isdir w patient_path = true -> listdir w patient_path <> Raise.

(** The three dictionaries of [s'] are those of [s] with the records
    [res] stored under [name], or unchanged when there are none. *)
Definition dicts_after (s : RunState) (name : string)
    (res : option (gmap string float * gmap string float * gmap string float))
    (s' : RunState) : Prop :=
  match res with
  | Some (d, a, b) =>
      all_delta_radiomics s' = <[name := d]> (all_delta_radiomics s) /\
      A_radiomics s' = <[name := a]> (A_radiomics s) /\
      B_radiomics s' = <[name := b]> (B_radiomics s)
  | None =>
      all_delta_radiomics s' = all_delta_radiomics s /\
      A_radiomics s' = A_radiomics s /\
      B_radiomics s' = B_radiomics s
  end.

(** The records stored under [p] once the folders [l] have been
    processed. *)
Definition stored_for (w : World) (data_folder_path : string) (l : list string)
    (p : string)
    : option (gmap string float * gmap string float * gmap string float) :=
  if bool_decide (p ∈ l) then patient_result w data_folder_path p else None.

(** ** Example cohorts *)

Module Examples.

(** The first 23 columns of a sheet: the label column and 22 further
    metadata columns. *)
Definition meta_columns : list string :=
  ["Segmentation"; "Image"; "Mask"; "Reader"; "Date"; "Modality"; "Voxels";
   "SpacingX"; "SpacingY"; "SpacingZ"; "SizeX"; "SizeY"; "SizeZ"; "Hash";
   "Version"; "Interp"; "BinWidth"; "Label"; "MinHU"; "MaxHU"; "Center";
   "Scanner"; "Notes"].

(** A sheet with the two feature columns [FeatA] and [FeatB]; a row is
    given by its label and its two feature cells, the other metadata
    cells are empty. *)
Definition sheet (body : list (Cell * Cell * Cell)) : DataFrame :=
  mkDataFrame (meta_columns ++ ["FeatA"; "FeatB"])
    (map (fun r => r.1.1 :: replicate 22 CNull ++ [r.1.2; r.2]) body).

Definition assoc {A : Type} (k : string) (l : list (string * A)) : option A :=
  snd <$> List.find (fun kv => String.eqb kv.1 k) l.

(** A file system given by its directories (with their listing, or
    [Raise] when a directory cannot be read) and its spreadsheets. *)
Definition make_world (dirs : list (string * result (list string)))
    (files : list (string * DataFrame))
    (to_float : string -> float) (float_str : float -> string) : World :=
  mkWorld
    (fun p => match assoc p dirs with Some r => r | None => Raise end)
    (fun p => match assoc p dirs with Some _ => true | None => false end)
    (fun p => match assoc p files with Some df => Ok df | None => Raise end)
    to_float float_str.

(** Conversions for sheets that hold no number written as text and no
    numeric label: every text is not a number. *)
Definition no_text_numbers : string -> float := fun _ => nan.
Definition no_numeric_labels : float -> string := fun _ => "".

(** Patient P001: Time A row {FeatA: 1.0, FeatB: "n/a"}, Time B row
    {FeatA: 3.0, FeatB: 5.0}; the Time A sheet has a second matching row
    further down. *)
Definition p001_A : DataFrame :=
  sheet [(CStr "whole_body", CNum 9, CNum 9);
         (CStr "lesion_suv2.5", CNum 1, CStr "n/a");
         (CStr "lesion_suv2.5_dilated", CNum 7, CNum 7)].
Definition p001_B : DataFrame :=
  sheet [(CStr "lesion_suv2.5", CNum 3, CNum 5)].

Definition p001_world (to_float : string -> float) (float_str : float -> string)
    : World :=
  make_world
    [("data", Ok ["P001"; "readme.txt"]);
     ("data/P001", Ok ["P001_B.xlsx"; "P001_A.xlsx"; "P001_A.XLSX"])]
    [("data/P001/P001_A.xlsx", p001_A); ("data/P001/P001_B.xlsx", p001_B)]
    to_float float_str.

(** Patient P002 has a Time A file only, P003 a Time B file only, P005
    an empty folder. *)
Definition p002_world : World :=
  make_world
    [("data", Ok ["P002"; "P003"; "P005"]);
     ("data/P002", Ok ["P002_A.xlsx"]);
     ("data/P003", Ok ["P003_B.xlsx"]);
     ("data/P005", Ok [])]
    [("data/P002/P002_A.xlsx", p001_A); ("data/P003/P003_B.xlsx", p001_B)]
    no_text_numbers no_numeric_labels.

(** Patient P004: FeatA is a number at Time A only, FeatB at Time B
    only. *)
Definition p004_A : DataFrame := sheet [(CStr "lesion_suv2.5", CNum 1, CNull)].
Definition p004_B : DataFrame := sheet [(CStr "lesion_suv2.5", CNull, CNum 5)].

Definition p004_world : World :=
  make_world
    [("data", Ok ["P004"]);
     ("data/P004", Ok ["P004_A.xlsx"; "P004_B.xlsx"])]
    [("data/P004/P004_A.xlsx", p004_A); ("data/P004/P004_B.xlsx", p004_B)]
    no_text_numbers no_numeric_labels.

(** The state at the end of the run over that cohort. *)
Definition p004_final : RunState :=
  mkRunState {["P004" := ∅]} {["P004" := {["FeatA" := 1%float]}]}
    {["P004" := {["FeatB" := 5%float]}]} []
    ["data/P004/P004_A.xlsx"; "data/P004/P004_B.xlsx"].

(** A cohort with P001, with P002 (a Time A file only) and with P004. *)
Definition mixed_world : World :=
  make_world
    [("data", Ok ["P004"; "P002"; "P001"]);
     ("data/P001", Ok ["P001_A.xlsx"; "P001_B.xlsx"]);
     ("data/P002", Ok ["P002_A.xlsx"]);
     ("data/P004", Ok ["P004_A.xlsx"; "P004_B.xlsx"])]
    [("data/P001/P001_A.xlsx", p001_A); ("data/P001/P001_B.xlsx", p001_B);
     ("data/P002/P002_A.xlsx", p001_A);
     ("data/P004/P004_A.xlsx", p004_A); ("data/P004/P004_B.xlsx", p004_B)]
    no_text_numbers no_numeric_labels.

(** The state at the end of the run over that cohort. *)
Definition mixed_final : RunState :=
  mkRunState
    (<["P001" := {["FeatA" := 2%float]}]> {["P004" := ∅]})
    (<["P001" := {["FeatA" := 1%float]}]> {["P004" := {["FeatA" := 1%float]}]})
    (<["P001" := <["FeatA" := 3%float]> {["FeatB" := 5%float]}]>
       {["P004" := {["FeatB" := 5%float]}]})
    [warning_message "P002"]
    ["data/P001/P001_A.xlsx"; "data/P001/P001_B.xlsx";
     "data/P004/P004_A.xlsx"; "data/P004/P004_B.xlsx"].

(** The folder of P001 cannot be read; P002 is a complete patient. *)
Definition unreadable_world : World :=
  make_world
    [("data", Ok ["P001"; "P002"]);
     ("data/P001", Raise);
     ("data/P002", Ok ["P002_A.xlsx"; "P002_B.xlsx"])]
    [("data/P002/P002_A.xlsx", p001_A); ("data/P002/P002_B.xlsx", p001_B)]
    no_text_numbers no_numeric_labels.

(** The same cohort with the folder readable and the Time A spreadsheet
    of P001 corrupt. *)
Definition corrupt_world : World :=
  make_world
    [("data", Ok ["P001"; "P002"]);
     ("data/P001", Ok ["P001_A.xlsx"; "P001_B.xlsx"]);
     ("data/P002", Ok ["P002_A.xlsx"; "P002_B.xlsx"])]
    [("data/P001/P001_B.xlsx", p001_B);
     ("data/P002/P002_A.xlsx", p001_A); ("data/P002/P002_B.xlsx", p001_B)]
    no_text_numbers no_numeric_labels.

(** A sheet whose only label is [suv2x5]. *)
Definition near_miss_sheet : DataFrame := sheet [(CStr "suv2x5", CNum 1, CNum 2)].

(** Patient P006: the Time A sheet has the 23 metadata columns and no
    feature column. *)
Definition p006_A : DataFrame :=
  mkDataFrame meta_columns [CStr "lesion_suv2.5" :: replicate 22 CNull].

Definition p006_world : World :=
  make_world
    [("data", Ok ["P006"]);
     ("data/P006", Ok ["P006_A.xlsx"; "P006_B.xlsx"])]
    [("data/P006/P006_A.xlsx", p006_A); ("data/P006/P006_B.xlsx", p001_B)]
    no_text_numbers no_numeric_labels.

Definition p006_final : RunState :=
  mkRunState {["P006" := ∅]} {["P006" := ∅]}
    {["P006" := <["FeatA" := 3%float]> {["FeatB" := 5%float]}]} []
    ["data/P006/P006_A.xlsx"; "data/P006/P006_B.xlsx"].

(** Patient P007: no label of the Time A sheet holds the tag. *)
Definition p007_A : DataFrame :=
  sheet [(CStr "whole_body", CNum 9, CNum 9); (CNull, CNum 1, CNum 2)].

Definition p007_world : World :=
  make_world
    [("data", Ok ["P007"]);
     ("data/P007", Ok ["P007_A.xlsx"; "P007_B.xlsx"])]
    [("data/P007/P007_A.xlsx", p007_A); ("data/P007/P007_B.xlsx", p001_B)]
    no_text_numbers no_numeric_labels.

End Examples.

(** ** Vocabulary of the further properties *)

(** The same world with another [os.listdir]. *)
Definition with_listdir (w : World) (listdir' : string -> result (list string))
    : World :=
  mkWorld listdir' (isdir w) (read_excel w) (to_float w) (float_str w).

(** Two results of [os.listdir] that differ at most in the order of the
    entries. *)
Definition same_entries (r r' : result (list string)) : Prop :=
  match r, r' with
  | Ok l, Ok l' => l ≡ₚ l'
  | Raise, Raise => True
  | _, _ => False
  end.

(** The warnings one iteration emits. *)
Definition iteration_warnings (w : World) (data_folder_path name : string)
    : list string :=
  if isdir w (path_join data_folder_path name) then
    match _find_patient_ab_files w (path_join data_folder_path name) with
    | Ok (Some _, None) => [warning_message name]
    | _ => []
    end
  else [].

(** The spreadsheets one iteration opens. *)
Definition iteration_reads (w : World) (data_folder_path name : string)
    : list string :=
  match located_pair w data_folder_path name with
  | Some (a, b) => reads_of_try w a b
  | None => []
  end.

(** ** The plotting script: [src/models_performance/plots.py] *)

(** The figure is not drawn here: a call of the plotting function is
    read as the sequence of the matplotlib calls it makes, with their
    arguments (keyword arguments that are the same constant at every call
    are left out).  The matplotlib calls themselves are taken to succeed:
    the exceptions of the model are those of the function's own lookups.
    Metric values are binary64 floats. *)

Set Warnings "-inexact-float".

Module Plots.

(** The exceptions the function can meet. *)
Inductive exn : Type := KeyError | IndexError | ValueError.

Inductive res (A : Type) : Type :=
  | Val (a : A)
  | Exn (e : exn).
Arguments Val {A} a.
Arguments Exn {A} e.

#[export] Instance res_ret : MRet res := fun A a => Val a.

#[export] Instance res_bind : MBind res := fun A B f m =>
  match m with
  | Val a => f a
  | Exn e => Exn e
  end.

(** The module's globals. *)
Definition datasets : list string :=
  ["Clinical"; "Clinical + Baseline"; "Clinical + Pre-LD"; "Clinical + Delta"].
Definition models : list string :=
  ["SVM"; "Random Forest"; "KNN"; "Logistic Regression"].
Definition colors : list string :=
  ["#1f77b4"; "#ff7f0e"; "#2ca02c"; "#d62728"].

(** [np.arange(len(datasets))] *)
Definition x : list nat := seq 0 (length datasets).

Definition width : float := 0.2.

(** An [int] used in float arithmetic. *)
Definition of_int (n : nat) : float :=
  PrimFloat.of_uint63 (Uint63.of_Z (Z.of_nat n)).

(** [d[k]] on a dict *)
Definition dict_get (d : gmap string (list float)) (k : string)
    : res (list float) :=
  match d !! k with
  | Some v => Val v
  | None => Exn KeyError
  end.

(** [l[i]] on a list, [i] not negative *)
Definition list_get {A : Type} (l : list A) (i : nat) : res A :=
  match l !! i with
  | Some v => Val v
  | None => Exn IndexError
  end.

(** [max(l)]: the first element, replaced by each later element that is
    greater than the maximum so far. *)
Definition py_max (l : list float) : res float :=
  match l with
  | [] => Exn ValueError
  | v :: l' =>
      Val (fold_left (fun m item => if (m <? item)%float then item else m) l' v)
  end.

(** A list built element by element, each of which may raise. *)
Fixpoint map_res {A B : Type} (f : A -> res B) (l : list A) : res (list B) :=
  match l with
  | [] => Val []
  | a :: l' =>
      b ← f a;
      bs ← map_res f l';
      Val (b :: bs)
  end.

(** [[data_dict[m][j] for m in models]] *)
Definition current_tick_values (data_dict : gmap string (list float)) (j : nat)
    : res (list float) :=
  map_res (fun m => values ← dict_get data_dict m; list_get values j) models.

(** The first loop: the maximum of each dataset's column. *)
Definition compute_local_maxes (data_dict : gmap string (list float))
    : res (list float) :=
  map_res (fun j => vals ← current_tick_values data_dict j; py_max vals)
    (seq 0 (length datasets)).

(** The matplotlib calls. *)
Inductive Call : Type :=
  | Subplots (figw figh : float)
  | Bar (xpos height barwidth : float) (color : string) (alpha : float)
        (edgecolor : string) (linewidth : float)
  | Text (xpos ypos : float) (s : string) (alpha : float) (fontweight : string)
  | SetYLabel (s : string)
  | SetTitle (s : string)
  | SetXTicks (ticks : list nat)
  | SetXTickLabels (labels : list string)
  | SetYLim (lo hi : float)
  | Legend (handles : list (string * string))
  | AxVLine (xpos : float)
  | Grid
  | TightLayout
  | SaveFig (filename : string) (dpi : nat)
  | Close.

(** Statements that draw: the calls made so far grow, also when an
    exception follows. *)
Definition Fig (A : Type) : Type := list Call -> list Call * res A.

#[export] Instance Fig_ret : MRet Fig := fun A a t => (t, Val a).

#[export] Instance Fig_bind : MBind Fig := fun A B f m t =>
  match m t with
  | (t', Val a) => f a t'
  | (t', Exn e) => (t', Exn e)
  end.

Definition emit (c : Call) : Fig unit := fun t => (t ++ [c], Val tt).

Definition eval {A : Type} (r : res A) : Fig A := fun t => (t, r).

(** [for k, a in enumerate(l, start): body] *)
Fixpoint for_enum {A : Type} (body : nat -> A -> Fig unit) (start : nat)
    (l : list A) : Fig unit :=
  match l with
  | [] => mret tt
  | a :: l' => body start a;; for_enum body (S start) l'
  end.

(** The body of the inner loop: one bar and its label. *)
Definition draw_value (fmt : float -> string) (local_maxes : list float)
    (i : nat) (offset : float) (j : nat) (val : float) : Fig unit :=
  local_max ← eval (list_get local_maxes j);
  let is_local_winner := (val =? local_max)%float in
  let alpha_val := if is_local_winner then 1.0%float else 0.30%float in
  let edge_color := if is_local_winner then "black" else "none" in
  xj ← eval (list_get x j);
  color ← eval (list_get colors i);
  emit (Bar (of_int xj + offset) val width color alpha_val edge_color 2.0);;
  emit (Text (of_int xj + offset) (val + 0.015) (fmt val)
          (if is_local_winner then 1.0%float else 0.7%float)
          (if is_local_winner then "bold" else "normal")).

(** The body of the outer loop: the bars of one model. *)
Definition draw_model (fmt : float -> string)
    (data_dict : gmap string (list float)) (local_maxes : list float)
    (i : nat) (model : string) : Fig unit :=
  let offset := ((of_int i - 1.5) * width)%float in
  values ← eval (dict_get data_dict model);
  for_enum (draw_value fmt local_maxes i offset) 0 values.

(** The legend handles: one patch per model. *)
Definition legend_handles : res (list (string * string)) :=
  map_res (fun i => c ← list_get colors i; m ← list_get models i; Val (c, m))
    (seq 0 (length models)).

(** [create_publication_quality_plot]; [fmt] is the formatting of a value
    with three decimals. *)
Definition create_publication_quality_plot (fmt : float -> string)
    (metric_name : string) (data_dict : gmap string (list float))
    (filename : string) : Fig unit :=
  emit (Subplots 15 8);;
  local_maxes ← eval (compute_local_maxes data_dict);
  for_enum (draw_model fmt data_dict local_maxes) 0 models;;
  emit (SetYLabel metric_name);;
  emit (SetTitle ("Comparative Analysis: " +:+ metric_name +:+
                  " (Peak Performance Highlighted)"));;
  emit (SetXTicks x);;
  emit (SetXTickLabels datasets);;
  emit (SetYLim 0 1.2);;
  handles ← eval legend_handles;
  emit (Legend handles);;
  for_enum (fun _ i => emit (AxVLine (of_int i + 0.5))) 0
    (seq 0 (length datasets - 1));;
  emit Grid;;
  emit TightLayout;;
  emit (SaveFig filename 300);;
  emit Close.

(** Every model of [models] has exactly one value per dataset. *)
Definition well_shaped (data_dict : gmap string (list float)) : Prop :=
  forall m, m ∈ models ->
    exists values, data_dict !! m = Some values /\
      length values = length datasets.

(** A call the two drawing loops make. *)
Definition bar_or_text (c : Call) : Prop :=
  match c with
  | Bar _ _ _ _ _ _ _ | Text _ _ _ _ _ => True
  | _ => False
  end.

(** The calls that follow the loops. *)
Definition closing_calls (metric_name filename : string) : list Call :=
  [SetYLabel metric_name;
   SetTitle ("Comparative Analysis: " +:+ metric_name +:+
             " (Peak Performance Highlighted)");
   SetXTicks [0; 1; 2; 3];
   SetXTickLabels datasets;
   SetYLim 0 1.2;
   Legend [("#1f77b4", "SVM"); ("#ff7f0e", "Random Forest");
           ("#2ca02c", "KNN"); ("#d62728", "Logistic Regression")];
   AxVLine 0.5; AxVLine 1.5; AxVLine 2.5;
   Grid; TightLayout; SaveFig filename 300; Close].

(** [m] only adds calls that satisfy [P], and an exception it raises
    satisfies [Q]. *)
Definition draws {A : Type} (P : Call -> Prop) (Q : exn -> Prop) (m : Fig A)
    : Prop :=
  forall t, exists new,
    (m t).1 = t ++ new /\ Forall P new /\
    forall e, (m t).2 = Exn e -> Q e.

(** The exceptions of a lookup. *)
Definition key_or_index (e : exn) : Prop := e = KeyError \/ e = IndexError.

(** The accuracy figures of the script. *)
Definition accuracy_data : gmap string (list float) :=
  list_to_map
    [("SVM", [0.500; 0.500; 0.667; 0.833]%float);
     ("Random Forest", [0.667; 0.833; 0.333; 0.833]%float);
     ("KNN", [0.167; 0.667; 0.500; 0.333]%float);
     ("Logistic Regression", [0.500; 0.667; 0.667; 0.500]%float)].

End Plots.

(** ** Proof automation *)

(** Closes one branch of the [try] block: the state and the outcome are
    read off, the read trace is reassociated. *)
Ltac close_try :=
  eexists _, _; repeat split; try done; try (by rewrite <- app_assoc).

(** * Properties *)

(** ** Strings and paths *)

Section Strings.

Lemma contains_sep (a f : string) :
  PyStr.contains "/" (a +:+ "/" +:+ f) = true.
Proof.
  induction a as [|c a IH].
  - by destruct f.
  - change (String c a +:+ "/" +:+ f) with (String c (a +:+ "/" +:+ f)).
    cbn [PyStr.contains]. fold (PyStr.contains "/" (a +:+ "/" +:+ f)).
    rewrite IH. apply orb_true_r.
Qed.

Lemma eqb_sep_false (a f suf : string) :
  PyStr.contains "/" suf = false -> String.eqb (a +:+ "/" +:+ f) suf = false.
Proof.
  intros Hsuf. destruct (String.eqb_spec (a +:+ "/" +:+ f) suf) as [<-|]; [|done].
  by rewrite contains_sep in Hsuf.
Qed.

(** A suffix without a separator lies within the last path component. *)
Lemma endswith_sep (a f suf : string) :
  PyStr.contains "/" suf = false ->
  PyStr.endswith (a +:+ "/" +:+ f) suf = PyStr.endswith f suf.
Proof.
  intros Hsuf. induction a as [|c a IH].
  - pose proof (eqb_sep_false "" f suf Hsuf) as E.
    change ("" +:+ "/" +:+ f) with (String "/" f) in *.
    cbn [PyStr.endswith]. by rewrite E.
  - pose proof (eqb_sep_false (String c a) f suf Hsuf) as E.
    change (String c a +:+ "/" +:+ f) with (String c (a +:+ "/" +:+ f)) in *.
    cbn [PyStr.endswith]. by rewrite E, IH.
Qed.

Lemma endswith_sep_split (p : string) :
  PyStr.endswith p "/" = true -> exists a, p = a +:+ "/".
Proof.
  induction p as [|c p IH]; [done|].
  cbn [PyStr.endswith]. intros [H|H]%orb_true_iff.
  - apply String.eqb_eq in H. by exists "".
  - destruct (IH H) as [a ->]. by exists (String c a).
Qed.

Lemma append_cons (x : ascii) (a b : string) :
  String x a +:+ b = String x (a +:+ b).
Proof. reflexivity. Qed.

Lemma append_assoc (a b c : string) : (a +:+ b) +:+ c = a +:+ b +:+ c.
Proof.
  induction a as [|x a IH]; [done|]. by rewrite !append_cons, IH.
Qed.

(** Joining a file name to a folder does not change whether the path ends
    with the extension. *)
Lemma endswith_path_join (p f : string) :
  PyStr.endswith (path_join p f) ".xlsx" = PyStr.endswith f ".xlsx".
Proof.
  unfold path_join.
  destruct (PyStr.startswith f "/"); [done|].
  destruct (String.eqb_spec p "") as [->|_]; [done|]. simpl orb.
  destruct (PyStr.endswith p "/") eqn:Hp.
  - apply endswith_sep_split in Hp as [a ->].
    rewrite append_assoc. by apply endswith_sep.
  - by apply endswith_sep.
Qed.

Lemma endswith_truthy (s : string) :
  PyStr.endswith s ".xlsx" = true -> PyStr.truthy s = true.
Proof. by destruct s. Qed.

End Strings.

(** ** Sorting *)

Section Sorting.

Lemma lt_false_le (x y : string) : PyStr.lt y x = false <-> String.le x y.
Proof.
  unfold PyStr.lt, String.ltb, String.le, String.leb.
  rewrite (String.compare_antisym x y).
  destruct (y ?= x)%string; simpl; intuition congruence.
Qed.

Lemma lt_true_le (x y : string) : PyStr.lt y x = true -> String.le y x.
Proof.
  unfold PyStr.lt, String.ltb, String.le, String.leb.
  by destruct (y ?= x)%string.
Qed.

Lemma insert_sorted_perm (x : string) (l : list string) :
  PyStr.insert_sorted x l ≡ₚ x :: l.
Proof.
  induction l as [|y l IH]; simpl; [done|].
  destruct (PyStr.lt y x); [|done].
  rewrite IH. apply Permutation_swap.
Qed.

Lemma sorted_perm (l : list string) : PyStr.sorted l ≡ₚ l.
Proof.
  induction l as [|x l IH]; simpl; [done|].
  by rewrite insert_sorted_perm, IH.
Qed.

Lemma elem_of_sorted (x : string) (l : list string) :
  x ∈ PyStr.sorted l <-> x ∈ l.
Proof. by rewrite sorted_perm. Qed.

(** The first element of the sorted list is a least element. *)
Lemma head_sorted_least (l : list string) (m : string) :
  head (PyStr.sorted l) = Some m ->
  m ∈ l /\ forall c, c ∈ l -> String.le m c.
Proof.
  revert m. induction l as [|x l IH]; intros m; simpl; [done|].
  destruct (PyStr.sorted l) as [|y s] eqn:Hs.
  - assert (l = []) as ->.
    { apply Permutation_nil_r. by rewrite <- Hs, sorted_perm. }
    clear IH. simpl. intros Hm; injection Hm as <-. split; [set_solver|].
    intros c ->%list_elem_of_singleton. done.
  - destruct (IH y eq_refl) as [Hy Hmin]. clear IH. simpl.
    destruct (PyStr.lt y x) eqn:Hyx; simpl; intros Hm; injection Hm as <-.
    + split; [set_solver|]. intros c [->|Hc]%elem_of_cons; [|by apply Hmin].
      by apply lt_true_le.
    + apply lt_false_le in Hyx. split; [set_solver|].
      intros c [->|Hc]%elem_of_cons; [done|].
      etrans; [exact Hyx|by apply Hmin].
Qed.

Lemma first_sorted_least (l : list string) (m : string) :
  PyStr.first_sorted l = Some m ->
  m ∈ l /\ forall c, c ∈ l -> String.le m c.
Proof.
  destruct l as [|x l]; [done|]. apply head_sorted_least.
Qed.

Lemma first_sorted_is_Some (l : list string) :
  l <> [] -> is_Some (PyStr.first_sorted l).
Proof.
  destruct l as [|x l]; [done|]. intros _. unfold PyStr.first_sorted.
  destruct (PyStr.sorted (x :: l)) as [|y s] eqn:Hs; [|by eexists].
  pose proof (sorted_perm (x :: l)) as Hp. rewrite Hs in Hp.
  by apply Permutation_nil_cons in Hp.
Qed.

Lemma first_sorted_None (l : list string) :
  PyStr.first_sorted l = None <-> l = [].
Proof.
  split; [|by intros ->].
  destruct l as [|x l]; [done|]. intros H.
  destruct (first_sorted_is_Some (x :: l)) as [m Hm]; [done|congruence].
Qed.

(** The choice does not depend on the order of the list. *)
Lemma first_sorted_perm (l l' : list string) :
  l ≡ₚ l' -> PyStr.first_sorted l = PyStr.first_sorted l'.
Proof.
  intros Hp.
  destruct (PyStr.first_sorted l) as [m|] eqn:Hm;
    destruct (PyStr.first_sorted l') as [m'|] eqn:Hm'.
  - apply first_sorted_least in Hm as [Hin Hmin].
    apply first_sorted_least in Hm' as [Hin' Hmin'].
    f_equal. apply (anti_symm String.le).
    + apply Hmin. by rewrite Hp.
    + apply Hmin'. by rewrite <- Hp.
  - destruct l' as [|x' l''].
    + apply Permutation_nil_r in Hp as ->. done.
    + destruct (first_sorted_is_Some (x' :: l'')) as [v Hv]; [done|congruence].
  - destruct l as [|x l''].
    + symmetry in Hp. apply Permutation_nil_r in Hp as ->. done.
    + destruct (first_sorted_is_Some (x :: l'')) as [v Hv]; [done|congruence].
  - done.
Qed.

End Sorting.

(** ** File Locator *)

Section FileLocator.

Lemma scan_entry_spec (p : string) (acc : list string * list string) (f : string) :
  scan_entry p acc f =
    (acc.1 ++ (if time_A_candidate f then [path_join p f] else []),
     acc.2 ++ (if time_B_candidate f then [path_join p f] else [])).
Proof.
  destruct acc as [a b]. unfold scan_entry, time_A_candidate, time_B_candidate, eligible.
  rewrite endswith_path_join.
  destruct (PyStr.endswith f ".xlsx"); simpl; [|by rewrite !app_nil_r].
  destruct (PyStr.contains "_A" (PyStr.upper f)); simpl; [by rewrite app_nil_r|].
  destruct (PyStr.contains "_B" (PyStr.upper f)); simpl; by rewrite ?app_nil_r.
Qed.

Lemma fold_scan_entry (p : string) (l : list string) (acc : list string * list string) :
  fold_left (scan_entry p) l acc =
    (acc.1 ++ (path_join p <$> filter (fun f => time_A_candidate f = true) l),
     acc.2 ++ (path_join p <$> filter (fun f => time_B_candidate f = true) l)).
Proof.
  revert acc. induction l as [|f l IH]; intros acc; simpl.
  - destruct acc. by rewrite !app_nil_r.
  - rewrite IH, scan_entry_spec, !filter_cons. simpl.
    destruct (time_A_candidate f), (time_B_candidate f); simpl;
      repeat case_decide; try done; by rewrite <- ?app_assoc, ?app_nil_r.
Qed.

Lemma scan_entries_spec (p : string) (l : list string) :
  scan_entries p l =
    (path_join p <$> filter (fun f => time_A_candidate f = true) l,
     path_join p <$> filter (fun f => time_B_candidate f = true) l).
Proof. unfold scan_entries. by rewrite fold_scan_entry. Qed.

Lemma scan_entries_perm (p : string) (l l' : list string) :
  l ≡ₚ l' ->
  (scan_entries p l).1 ≡ₚ (scan_entries p l').1 /\
  (scan_entries p l).2 ≡ₚ (scan_entries p l').2.
Proof.
  intros Hp. rewrite !scan_entries_spec. simpl. by rewrite Hp.
Qed.

(** Every candidate is the path of an entry whose name ends with the
    extension. *)
Lemma candidate_eligible (p : string) (l : list string) (c : string) :
  c ∈ (scan_entries p l).1 \/ c ∈ (scan_entries p l).2 ->
  exists f, f ∈ l /\ c = path_join p f /\ eligible f = true.
Proof.
  rewrite scan_entries_spec. simpl.
  intros [H|H]; apply list_elem_of_fmap in H as (f & -> & Hf);
    apply list_elem_of_filter in Hf as [Hc Hf]; exists f; split_and!; try done.
  - unfold time_A_candidate in Hc. by apply andb_true_iff in Hc as [? _].
  - unfold time_B_candidate in Hc. by apply andb_true_iff in Hc as [[? _]%andb_true_iff _].
Qed.

Lemma find_in_listing_eq (p : string) (l : list string) :
  find_in_listing p l =
    (PyStr.first_sorted (scan_entries p l).1, PyStr.first_sorted (scan_entries p l).2).
Proof. unfold find_in_listing. by destruct (scan_entries p l). Qed.

(** A located path is the path of an eligible entry: in particular it is
    not the empty string, so its truth value is true. *)
Lemma find_in_listing_Some (p : string) (l : list string) (c : string) :
  (find_in_listing p l).1 = Some c \/ (find_in_listing p l).2 = Some c ->
  exists f, f ∈ l /\ c = path_join p f /\ eligible f = true.
Proof.
  rewrite find_in_listing_eq. simpl.
  intros [H|H]; apply first_sorted_least in H as [H _];
    eapply candidate_eligible; eauto.
Qed.

Lemma find_in_listing_truthy (p : string) (l : list string) (o : option string) :
  o = (find_in_listing p l).1 \/ o = (find_in_listing p l).2 ->
  PyStr.truthy_opt o = bool_decide (is_Some o).
Proof.
  intros H. destruct o as [c|]; simpl; [|done].
  assert (exists f, f ∈ l /\ c = path_join p f /\ eligible f = true) as (f & _ & -> & Hf).
  { apply find_in_listing_Some. destruct H as [<-| <-]; auto. }
  apply endswith_truthy. by rewrite endswith_path_join.
Qed.

Lemma filter_true_nil (g : string -> string) (P : string -> bool)
    (l : list string) :
  g <$> filter (fun f => P f = true) l = [] <->
  forall f, f ∈ l -> P f = false.
Proof.
  induction l as [|x l IH].
  - split; [|done]. intros _ f Hf. by apply elem_of_nil in Hf.
  - rewrite filter_cons. destruct (P x) eqn:Hx.
    + rewrite decide_True by done. split; [done|].
      intros H. specialize (H x (list_elem_of_here _ _)). congruence.
    + rewrite decide_False by done. rewrite IH. split.
      * intros H f [->|Hf]%elem_of_cons; auto.
      * intros H f Hf. apply H. by right.
Qed.

(** The first of the sorted candidate paths is the least candidate of
    the listing. *)
Lemma first_sorted_least_candidate (candidate : string -> bool) (p : string)
    (l : list string) :
  least_candidate candidate p l
    (PyStr.first_sorted (path_join p <$> filter (fun f => candidate f = true) l)).
Proof.
  destruct (PyStr.first_sorted _) as [m|] eqn:Hm; simpl.
  - apply first_sorted_least in Hm as [Hin Hmin]. split.
    + apply list_elem_of_fmap in Hin as (f & -> & [? ?]%list_elem_of_filter).
      by exists f.
    + intros f Hf Hc. apply lt_false_le, Hmin.
      apply list_elem_of_fmap. exists f. split; [done|].
      by apply list_elem_of_filter.
  - apply first_sorted_None in Hm.
    exact (proj1 (filter_true_nil (path_join p) candidate l) Hm).
Qed.

End FileLocator.

(** ** Floating-point facts *)

Section FloatFacts.

Lemma SFeqb_refl_false (x : spec_float) : SFeqb x x = false -> x = S754_nan.
Proof.
  destruct x as [s|s| |s m e]; unfold SFeqb, SFcompare;
    try (destruct s; discriminate); [done|].
  rewrite Z.compare_refl, Pos.compare_cont_refl.
  destruct s; simpl; rewrite ?Pos.compare_refl; discriminate.
Qed.

Lemma is_nan_Prim2SF (x : float) : is_nan x = true <-> Prim2SF x = S754_nan.
Proof.
  unfold is_nan. rewrite FloatAxioms.eqb_spec. split.
  - intros H. apply SFeqb_refl_false. by destruct (SFeqb _ _).
  - by intros ->.
Qed.

(** NaN is absorbing for the subtraction. *)
Lemma sub_nan_l (x y : float) : is_nan x = true -> is_nan (x - y)%float = true.
Proof. rewrite !is_nan_Prim2SF, sub_spec. by intros ->. Qed.

Lemma sub_nan_r (x y : float) : is_nan y = true -> is_nan (x - y)%float = true.
Proof.
  rewrite !is_nan_Prim2SF, sub_spec. intros ->.
  unfold SF64sub, SFsub. by destruct (Prim2SF x).
Qed.

Lemma sub_not_nan (x y : float) :
  is_nan (x - y)%float = false -> is_nan x = false /\ is_nan y = false.
Proof.
  intros H. split.
  - destruct (is_nan x) eqn:Hx; [|done]. by rewrite (sub_nan_l x y Hx) in H.
  - destruct (is_nan y) eqn:Hy; [|done]. by rewrite (sub_nan_r x y Hy) in H.
Qed.

End FloatFacts.

(** ** Series and records *)

Section Records.

Lemma dropna_lookup (s : gmap string float) (f : string) (v : float) :
  dropna s !! f = Some v <-> s !! f = Some v /\ is_nan v = false.
Proof. unfold dropna. by rewrite map_lookup_filter_Some. Qed.

Lemma series_sub_lookup (b a : list (string * float)) (f : string) :
  series_sub b a !! f =
    sub_aligned ((list_to_map b : gmap string float) !! f)
                ((list_to_map a : gmap string float) !! f).
Proof.
  unfold series_sub. rewrite lookup_merge.
  by destruct (list_to_map b !! f), (list_to_map a !! f).
Qed.

(** A feature is in the Delta Record exactly when both rows have it and
    the difference is not NaN. *)
Lemma delta_lookup (b a : list (string * float)) (f : string) (v : float) :
  dropna (series_sub b a) !! f = Some v <->
  exists x y, (list_to_map b : gmap string float) !! f = Some x /\
              (list_to_map a : gmap string float) !! f = Some y /\
              v = (x - y)%float /\ is_nan v = false.
Proof.
  rewrite dropna_lookup, series_sub_lookup. split.
  - intros [H Hv].
    destruct (list_to_map b !! f) as [x|], (list_to_map a !! f) as [y|];
      simplify_eq/=; eauto 10.
  - intros (x & y & -> & -> & -> & Hv). done.
Qed.

(** A feature of the Delta Record is a feature of both numeric rows. *)
Lemma delta_in_both (b a : list (string * float)) (f : string) :
  is_Some (dropna (series_sub b a) !! f) ->
  is_Some (dropna_to_dict a !! f) /\ is_Some (dropna_to_dict b !! f).
Proof.
  intros [v (x & y & Hb & Ha & -> & Hv)%delta_lookup].
  apply sub_not_nan in Hv as [Hx Hy]. unfold dropna_to_dict.
  split; eexists; apply dropna_lookup; eauto.
Qed.

End Records.

(** ** Output tables *)

Section Frames.

Implicit Types (data : gmap string (gmap string float)).

Lemma from_nested_dict_inner (index : string) (s : gmap string float) data
    (col key : string) :
  nested_at (map_fold (fun col v new_data =>
         <[col := <[index := v]> (default ∅ (new_data !! col))]> new_data)
         data s) col key =
  if decide (key = index) then
    match s !! col with Some v => Some v | None => nested_at data col index end
  else nested_at data col key.
Proof.
  revert col key.
  apply (map_fold_weak_ind (fun r (m : gmap string float) => forall col key,
    nested_at r col key =
      if decide (key = index) then
        match m !! col with Some v => Some v | None => nested_at data col index end
      else nested_at data col key)).
  - intros col key. rewrite lookup_empty. by case_decide; subst.
  - intros c x m r Hc IH col key. unfold nested_at in *.
    destruct (decide (col = c)) as [->|Hne].
    + rewrite !lookup_insert_eq. simpl.
      destruct (decide (key = index)) as [->|Hk].
      * by rewrite lookup_insert_eq.
      * rewrite lookup_insert_ne by done.
        specialize (IH c key). rewrite decide_False in IH by done.
        rewrite <- IH. by destruct (r !! c).
    + rewrite !lookup_insert_ne by done. apply IH.
Qed.

(** [_from_nested_dict] swaps the two key levels. *)
Lemma from_nested_dict_lookup data (col key : string) :
  nested_at (_from_nested_dict data) col key = nested_at data key col.
Proof.
  unfold _from_nested_dict. revert col key.
  apply (map_fold_weak_ind (fun r (m : gmap string (gmap string float)) =>
    forall col key, nested_at r col key = nested_at m key col)).
  - intros col key. unfold nested_at. by rewrite !lookup_empty.
  - intros i s m r Hi IH col key.
    rewrite from_nested_dict_inner.
    destruct (decide (key = i)) as [->|Hk].
    + rewrite IH. unfold nested_at. rewrite lookup_insert_eq, Hi. simpl.
      by destruct (s !! col).
    + rewrite IH. unfold nested_at. by rewrite lookup_insert_ne.
Qed.

(** The row keys of the table are the keys of the dictionary. *)
Lemma elem_of_from_dict_index data (key : string) :
  key ∈ df_index (from_dict_index data) <-> is_Some (data !! key).
Proof. unfold df_index, from_dict_index. simpl. apply elem_of_dom. Qed.

(** A cell of the table holds the value of the key's record. *)
Lemma frame_at_from_dict_index data (feature p : string) :
  frame_at (from_dict_index data) feature p =
  data !! p ≫= (fun record : gmap string float => record !! feature).
Proof. apply from_nested_dict_lookup. Qed.

(** The row of the table at a key is the key's record. *)
Lemma df_row_from_dict_index data (key : string) :
  df_row (from_dict_index data) key = default ∅ (data !! key).
Proof.
  apply map_eq. intros col. unfold df_row, from_dict_index. simpl.
  rewrite lookup_omap.
  change (nested_at (_from_nested_dict data) col key = default ∅ (data !! key) !! col).
  rewrite from_nested_dict_lookup. unfold nested_at. by destruct (data !! key).
Qed.

(** The row of a key holds a number exactly when the key has a record
    that is not empty. *)
Lemma df_row_nonempty data (key : string) :
  df_row (from_dict_index data) key <> ∅ <->
  exists record, data !! key = Some record /\ record <> ∅.
Proof.
  rewrite df_row_from_dict_index. destruct (data !! key) as [record|]; simpl.
  - split; [by exists record|]. by intros (? & [= <-] & ?).
  - split; [done|]. by intros (? & ? & _).
Qed.

End Frames.

(** ** The cohort loop *)

Section Loop.

Context (w : World) (root : string).

(** The [try] statement never lets an exception out; it stores the
    records of [patient_records], when there are any, and opens the
    spreadsheets of [reads_of_try]. *)
Lemma try_block_spec (name file_A file_B : string) (s : RunState) :
  exists s' o,
    try_except (try_body w name (Some file_A) (Some file_B)) continue s = (s', o) /\
    o <> Raised /\
    dicts_after s name (patient_records w file_A file_B) s' /\
    warnings s' = warnings s /\
    excel_reads s' = excel_reads s ++ reads_of_try w file_A file_B.
Proof.
  unfold try_except, try_body, patient_records, reads_of_try, row_selector,
    pd_read_excel, mbind, M_bind, continue, call, store_records, dicts_after.
  destruct (read_excel w file_A) as [df_A|]; simpl; [|close_try].
  destruct (read_excel w file_B) as [df_B|]; simpl; [|close_try].
  destruct (has_column label_column df_A); simpl; [|close_try].
  destruct (has_column label_column df_B); simpl;
    [|destruct (segmentation_mask w df_A) as [m|];
      [destruct (any m);
        [destruct (iloc_first_from df_A m feature_start_col)|]|];
      close_try].
  destruct (segmentation_mask w df_A) as [mask_A|]; simpl; [|close_try].
  destruct (segmentation_mask w df_B) as [mask_B|]; simpl;
    [|destruct (any mask_A);
      [destruct (iloc_first_from df_A mask_A feature_start_col)|];
      close_try].
  destruct (any mask_A); simpl; [|close_try].
  destruct (any mask_B); simpl;
    [|destruct (iloc_first_from df_A mask_A feature_start_col); close_try].
  destruct (iloc_first_from df_A mask_A feature_start_col) as [row_A|]; simpl;
    [|close_try].
  destruct (iloc_first_from df_B mask_B feature_start_col) as [row_B|]; simpl;
    close_try.
Qed.

Lemma find_truthy (p : string) (a b : option string) :
  _find_patient_ab_files w p = Ok (a, b) ->
  PyStr.truthy_opt a = bool_decide (is_Some a) /\
  PyStr.truthy_opt b = bool_decide (is_Some b).
Proof.
  unfold _find_patient_ab_files. destruct (listdir w p) as [l|]; [|done].
  intros [= H]. split; apply (find_in_listing_truthy p l); rewrite H; auto.
Qed.

Lemma loop_body_not_dir (name : string) (s : RunState) :
  isdir w (path_join root name) = false ->
  loop_body w root name s = (s, Continue).
Proof. unfold loop_body. by intros ->. Qed.

Lemma loop_body_unlistable (name : string) (s : RunState) :
  isdir w (path_join root name) = true ->
  listdir w (path_join root name) = Raise ->
  loop_body w root name s = (s, Raised).
Proof.
  unfold loop_body, _find_patient_ab_files. intros -> Hl. simpl.
  unfold mbind, M_bind, call. by rewrite Hl.
Qed.

(** Rule 1: a Time A file and no Time B file. *)
Lemma loop_body_A_only (name file_A : string) (s : RunState) :
  isdir w (path_join root name) = true ->
  _find_patient_ab_files w (path_join root name) = Ok (Some file_A, None) ->
  loop_body w root name s =
    (mkRunState (all_delta_radiomics s) (A_radiomics s) (B_radiomics s)
       (warnings s ++ [warning_message name]) (excel_reads s), Continue).
Proof.
  intros Hd Hf. destruct (find_truthy _ _ _ Hf) as [Ha _].
  unfold loop_body. rewrite Hd. simpl. unfold mbind, M_bind, call.
  rewrite Hf. cbn [fst snd]. by rewrite Ha.
Qed.

(** Rules 2 and 3: no Time A file. *)
Lemma loop_body_no_A (name : string) (file_B : option string) (s : RunState) :
  isdir w (path_join root name) = true ->
  _find_patient_ab_files w (path_join root name) = Ok (None, file_B) ->
  loop_body w root name s = (s, Continue).
Proof.
  intros Hd Hf. unfold loop_body. rewrite Hd. simpl.
  unfold mbind, M_bind, call. rewrite Hf. simpl.
  by destruct (PyStr.truthy_opt file_B).
Qed.

(** Rule 4: both files. *)
Lemma loop_body_both (name file_A file_B : string) (s : RunState) :
  isdir w (path_join root name) = true ->
  _find_patient_ab_files w (path_join root name) = Ok (Some file_A, Some file_B) ->
  loop_body w root name s =
    try_except (try_body w name (Some file_A) (Some file_B)) continue s.
Proof.
  intros Hd Hf. destruct (find_truthy _ _ _ Hf) as [Ha Hb].
  unfold loop_body. rewrite Hd. simpl. unfold mbind, M_bind, call.
  rewrite Hf. cbn [fst snd]. by rewrite Ha, Hb.
Qed.

(** One iteration over a folder the File Locator can handle. *)
Lemma loop_body_step (name : string) (s : RunState) :
  listable w root name ->
  exists s' o, loop_body w root name s = (s', o) /\ o <> Raised /\
    dicts_after s name (patient_result w root name) s'.
Proof.
  unfold listable, patient_result, located_pair. intros Hl.
  destruct (isdir w (path_join root name)) eqn:Hd.
  - destruct (_find_patient_ab_files w (path_join root name))
      as [[[file_A|] [file_B|]]|] eqn:Hf.
    + rewrite (loop_body_both _ _ _ _ Hd Hf).
      destruct (try_block_spec name file_A file_B s) as (s' & o & -> & ? & ? & _).
      by exists s', o.
    + rewrite (loop_body_A_only _ _ _ Hd Hf). by eexists _, _.
    + rewrite (loop_body_no_A _ _ _ Hd Hf). by eexists _, _.
    + rewrite (loop_body_no_A _ _ _ Hd Hf). by eexists _, _.
    + unfold _find_patient_ab_files in Hf.
      destruct (listdir w (path_join root name)); [done|]. by destruct Hl.
  - rewrite (loop_body_not_dir _ _ Hd). by eexists _, _.
Qed.

(** An iteration that ends without an exception was over such a folder. *)
Lemma loop_body_listable (name : string) (s s' : RunState) (o : outcome unit) :
  loop_body w root name s = (s', o) -> o <> Raised -> listable w root name.
Proof.
  intros Hb Ho Hd Hl. rewrite (loop_body_unlistable _ _ Hd Hl) in Hb.
  by simplify_eq.
Qed.

Lemma stored_for_nil (p : string) : stored_for w root [] p = None.
Proof. unfold stored_for. by rewrite bool_decide_eq_false_2 by set_solver. Qed.

(** The loop, when it runs to its end: the record of [p] in each
    dictionary is the one of its last iteration that stored something,
    and all iterations of one folder store the same. *)
Lemma for_each_spec (l : list string) (s s' : RunState) (o : outcome unit) :
  for_each (loop_body w root) l s = (s', o) -> o <> Raised ->
  o = Normal tt /\ Forall (listable w root) l /\
  forall p,
    all_delta_radiomics s' !! p =
      match stored_for w root l p with
      | Some r => Some r.1.1 | None => all_delta_radiomics s !! p end /\
    A_radiomics s' !! p =
      match stored_for w root l p with
      | Some r => Some r.1.2 | None => A_radiomics s !! p end /\
    B_radiomics s' !! p =
      match stored_for w root l p with
      | Some r => Some r.2 | None => B_radiomics s !! p end.
Proof.
  revert s. induction l as [|x l IH]; intros s; cbn [for_each].
  - intros [= <- <-] _. split_and!; [done|done|].
    intros p. by rewrite stored_for_nil.
  - destruct (loop_body w root x s) as [s1 o1] eqn:Hx.
    assert (o1 = Raised \/ o1 <> Raised) as [->|Ho1]
      by (destruct o1; auto). { by intros [= <- <-] ?. }
    intros Hrest Ho.
    assert (for_each (loop_body w root) l s1 = (s', o)) as Hl
      by (by destruct o1).
    destruct (IH _ Hl Ho) as (-> & Hall & Hlook).
    pose proof (loop_body_listable _ _ _ _ Hx Ho1) as Hlx.
    destruct (loop_body_step x s Hlx) as (s1' & o1' & Hx' & _ & Hd).
    rewrite Hx in Hx'. simplify_eq.
    split_and!; [done|by constructor|].
    intros p. destruct (Hlook p) as (HD & HA & HB).
    rewrite HD, HA, HB. clear HD HA HB Hlook.
    unfold stored_for. rewrite (bool_decide_ext (p ∈ x :: l) (p = x \/ p ∈ l))
      by apply elem_of_cons.
    unfold dicts_after in Hd.
    destruct (decide (p ∈ l)) as [Hin|Hin].
    + rewrite !bool_decide_eq_true_2 by auto.
      destruct (patient_result w root p) as [r|] eqn:Hr; [done|].
      destruct (decide (p = x)) as [->|Hne].
      * rewrite Hr in Hd. by destruct Hd as (-> & -> & ->).
      * destruct (patient_result w root x) as [[[d a] b]|];
          destruct Hd as (-> & -> & ->); by rewrite ?lookup_insert_ne.
    + rewrite (bool_decide_eq_false_2 (p ∈ l)) by done.
      destruct (decide (p = x)) as [->|Hne].
      * rewrite bool_decide_eq_true_2 by auto.
        destruct (patient_result w root x) as [[[d a] b]|];
          destruct Hd as (-> & -> & ->); by rewrite ?lookup_insert_eq.
      * rewrite bool_decide_eq_false_2 by tauto.
        destruct (patient_result w root x) as [[[d a] b]|];
          destruct Hd as (-> & -> & ->); by rewrite ?lookup_insert_ne.
Qed.

(** The loop runs to its end when every folder can be handled. *)
Lemma for_each_total (l : list string) (s : RunState) :
  Forall (listable w root) l ->
  exists s', for_each (loop_body w root) l s = (s', Normal tt).
Proof.
  intros Hl. revert s. induction Hl as [|x l Hx _ IH]; intros s; simpl.
  - by eexists.
  - destruct (loop_body_step x s Hx) as (s1 & o1 & -> & Ho1 & _).
    destruct (IH s1) as [s' Hs']. exists s'. by destruct o1.
Qed.

End Loop.

(** ** Row Selector *)

Section RowSelector.

Context (w : World).

Lemma has_column_index (name : string) (df : DataFrame) :
  has_column name df = true <-> is_Some (column_index name (columns df)).
Proof.
  unfold has_column. induction (columns df) as [|c cols IH]; simpl.
  - split; [done|by intros [? ?]].
  - rewrite (String.eqb_sym c name).
    destruct (String.eqb name c); simpl; [by split; eauto|].
    rewrite IH. by rewrite fmap_is_Some.
Qed.

Lemma loc_mask_map (df : DataFrame) (f : list Cell -> bool) :
  loc_mask df (map f (rows df)) = List.filter f (rows df).
Proof.
  unfold loc_mask. induction (rows df) as [|r l IH]; simpl; [done|].
  destruct (f r); simpl; by rewrite IH.
Qed.

Lemma any_map {A : Type} (f : A -> bool) (l : list A) :
  any (map f l) = true <-> exists x, x ∈ l /\ f x = true.
Proof.
  unfold any. induction l as [|x l IH]; simpl.
  - split; [done|]. intros (x & Hx & _). by apply elem_of_nil in Hx.
  - rewrite orb_true_iff, IH. unfold id. split.
    + intros [H|(y & Hy & Hf)]; [exists x|exists y]; split; try done;
        apply elem_of_cons; auto.
    + intros (y & [->|Hy]%elem_of_cons & Hf); eauto.
Qed.

(** The first element a filter keeps, and where it stands. *)
Lemma filter_first {A : Type} (f : A -> bool) (l : list A) :
  (exists x, x ∈ l /\ f x = true) ->
  exists i r rest,
    l !! i = Some r /\ f r = true /\
    (forall i' r', i' < i -> l !! i' = Some r' -> f r' = false) /\
    List.filter f l = r :: rest.
Proof.
  induction l as [|x l IH]; intros (y & Hy & Hf).
  - by apply elem_of_nil in Hy.
  - simpl. destruct (f x) eqn:Hx.
    + exists 0, x, (List.filter f l). split_and!; try done. intros; lia.
    + apply elem_of_cons in Hy as [->|Hy]; [congruence|].
      destruct IH as (i & r & rest & Hi & Hr & Hbefore & Hfil); [by eauto|].
      exists (S i), r, rest. split_and!; try done.
      intros [|i'] r' Hlt Hr'; simpl in Hr'; [by simplify_eq|].
      apply (Hbefore i'); [lia|done].
Qed.

(** The mask, row by row. *)
Lemma segmentation_mask_spec (df : DataFrame) (j : nat) :
  column_index label_column (columns df) = Some j ->
  segmentation_mask w df =
    Ok (map (fun row => label_matches w (nth j row CNull)) (rows df)).
Proof.
  unfold segmentation_mask, get_column. intros ->.
  by rewrite map_map.
Qed.

(** With a label column and a matching row, the selector returns the
    feature block of the first matching row. *)
Lemma row_selector_first (df : DataFrame) :
  has_column label_column df = true -> has_tag_row w df ->
  exists j i row,
    column_index label_column (columns df) = Some j /\
    rows df !! i = Some row /\
    label_matches w (nth j row CNull) = true /\
    (forall i' row', i' < i -> rows df !! i' = Some row' ->
       label_matches w (nth j row' CNull) = false) /\
    row_selector w df = Some (drop feature_start_col (zip (columns df) row)).
Proof.
  intros Hc (j & row0 & Hj & Hrow0 & Hm0).
  destruct (filter_first (fun row => label_matches w (nth j row CNull)) (rows df))
    as (i & row & rest & Hi & Hm & Hbefore & Hfil); [by eauto|].
  exists j, i, row. split_and!; try done.
  unfold row_selector. rewrite Hc, (segmentation_mask_spec df j Hj).
  rewrite (proj2 (any_map _ _)) by eauto.
  unfold iloc_first_from. by rewrite loc_mask_map, Hfil.
Qed.

Lemma row_selector_is_Some (df : DataFrame) :
  is_Some (row_selector w df) <->
  has_column label_column df = true /\ has_tag_row w df.
Proof.
  split.
  - intros [row Hrow]. unfold row_selector in Hrow.
    destruct (has_column label_column df) eqn:Hc; [|done].
    split; [done|].
    apply has_column_index in Hc as [j Hj].
    rewrite (segmentation_mask_spec df j Hj) in Hrow.
    destruct (any _) eqn:Hany; [|done].
    apply any_map in Hany as (r & Hr & Hm). by exists j, r.
  - intros [Hc Ht].
    destruct (row_selector_first df Hc Ht) as (j & i & row & _ & _ & _ & _ & ->).
    by eexists.
Qed.

End RowSelector.

(** ** One patient *)

Section Patient.

Context (w : World) (root : string).

(** The iteration stores records exactly when the folder is a directory
    with both files, both load, and both tables yield a selected row. *)
Lemma patient_result_Some (p : string)
    (r : gmap string float * gmap string float * gmap string float) :
  patient_result w root p = Some r <->
  exists file_A file_B df_A df_B row_A row_B,
    isdir w (path_join root p) = true /\
    _find_patient_ab_files w (path_join root p) = Ok (Some file_A, Some file_B) /\
    read_excel w file_A = Ok df_A /\ read_excel w file_B = Ok df_B /\
    row_selector w df_A = Some row_A /\ row_selector w df_B = Some row_B /\
    r = (dropna (series_sub (to_numeric w row_B) (to_numeric w row_A)),
         dropna_to_dict (to_numeric w row_A),
         dropna_to_dict (to_numeric w row_B)).
Proof.
  unfold patient_result, located_pair, patient_records. split.
  - destruct (isdir w (path_join root p)) eqn:Hd; [|done].
    destruct (_find_patient_ab_files w (path_join root p))
      as [[[file_A|] [file_B|]]|] eqn:Hf; try done.
    destruct (read_excel w file_A) as [df_A|] eqn:HrA; [|done].
    destruct (read_excel w file_B) as [df_B|] eqn:HrB; [|done].
    destruct (row_selector w df_A) as [row_A|] eqn:HA; [|done].
    destruct (row_selector w df_B) as [row_B|] eqn:HB; [|done].
    intros [= <-]. by exists file_A, file_B, df_A, df_B, row_A, row_B.
  - intros (file_A & file_B & df_A & df_B & row_A & row_B &
            -> & -> & -> & -> & -> & -> & ->). done.
Qed.

(** The Delta Record is not empty exactly when some feature has a
    difference that is not NaN. *)
Lemma delta_nonempty (df_A df_B : DataFrame) (row_A row_B : list (string * Cell)) :
  row_selector w df_A = Some row_A -> row_selector w df_B = Some row_B ->
  dropna (series_sub (to_numeric w row_B) (to_numeric w row_A)) <> ∅ <->
  exists feature a b,
    selected_value w df_A feature = Some a /\
    selected_value w df_B feature = Some b /\
    is_nan (b - a)%float = false.
Proof.
  intros HA HB. unfold selected_value. rewrite HA, HB. simpl. split.
  - intros (f & v & (b & a & Hb & Ha & -> & Hv)%delta_lookup)%map_choose.
    by exists f, a, b.
  - intros (f & a & b & Ha & Hb & Hv) Hempty.
    assert (dropna (series_sub (to_numeric w row_B) (to_numeric w row_A)) !! f
            = Some (b - a)%float) as Hl.
    { apply delta_lookup. by exists b, a. }
    by rewrite Hempty, lookup_empty in Hl.
Qed.

End Patient.

(** ** A whole run *)

Section Run.

Context (w : World) (root : string).

(** A run that returns has listed the root and gone through the loop. *)
Lemma run_returns (s : RunState)
    (delta_df A_df B_df : Table) :
  calculate_delta_radiomics w root = (s, Normal (delta_df, A_df, B_df)) ->
  exists names,
    listdir w root = Ok names /\
    for_each (loop_body w root) (PyStr.sorted names) initial_state = (s, Normal tt) /\
    delta_df = from_dict_index (all_delta_radiomics s) /\
    A_df = from_dict_index (A_radiomics s) /\
    B_df = from_dict_index (B_radiomics s).
Proof.
  unfold calculate_delta_radiomics, run_statements, mbind, M_bind, call, build_tables.
  destruct (listdir w root) as [names|]; [|done]. simpl.
  destruct (for_each _ _ _) as [s1 [[]| |]] eqn:Hloop; [|done..].
  intros [= <- <- <- <-]. by exists names.
Qed.

(** The run returns when the root and every patient folder can be
    listed. *)
Lemma run_total (names : list string) :
  listdir w root = Ok names -> Forall (listable w root) names ->
  exists s, calculate_delta_radiomics w root =
    (s, Normal (from_dict_index (all_delta_radiomics s),
                from_dict_index (A_radiomics s),
                from_dict_index (B_radiomics s))).
Proof.
  intros Hn Hl.
  destruct (for_each_total w root (PyStr.sorted names) initial_state) as [s Hs].
  { rewrite Forall_forall in Hl |- *. intros x Hx. apply Hl.
    by apply elem_of_sorted. }
  exists s.
  unfold calculate_delta_radiomics, run_statements, mbind, M_bind, call, build_tables.
  rewrite Hn. simpl. by rewrite Hs.
Qed.

(** The three dictionaries at the end of a run. *)
Lemma run_dicts (s : RunState) (names : list string) (p : string) :
  listdir w root = Ok names ->
  for_each (loop_body w root) (PyStr.sorted names) initial_state = (s, Normal tt) ->
  all_delta_radiomics s !! p = (fun r => r.1.1) <$> stored_for w root names p /\
  A_radiomics s !! p = (fun r => r.1.2) <$> stored_for w root names p /\
  B_radiomics s !! p = (fun r => r.2) <$> stored_for w root names p.
Proof.
  intros Hn Hloop.
  destruct (for_each_spec w root _ _ _ _ Hloop) as (_ & _ & Hlook); [done|].
  destruct (Hlook p) as (HD & HA & HB). rewrite HD, HA, HB.
  assert (stored_for w root (PyStr.sorted names) p = stored_for w root names p) as ->.
  { unfold stored_for. by rewrite (bool_decide_ext _ _ (elem_of_sorted p names)). }
  simpl. by destruct (stored_for w root names p).
Qed.

Lemma stored_for_Some (names : list string) (p : string)
    (r : gmap string float * gmap string float * gmap string float) :
  stored_for w root names p = Some r <->
  p ∈ names /\ patient_result w root p = Some r.
Proof.
  unfold stored_for. case_bool_decide as Hp.
  - split; [by intros ->|by intros [_ ->]].
  - split; [done|by intros [? _]].
Qed.

(** A folder in the listing has stored records exactly when it is a
    directory with both files, both load, and both tables have the label
    column and a row that matches. *)
Lemma stored_for_is_Some (names : list string) (p : string) :
  is_Some (stored_for w root names p) <->
  p ∈ names /\ isdir w (path_join root p) = true /\
  exists file_A file_B df_A df_B,
    _find_patient_ab_files w (path_join root p) = Ok (Some file_A, Some file_B) /\
    read_excel w file_A = Ok df_A /\ read_excel w file_B = Ok df_B /\
    has_column label_column df_A = true /\ has_column label_column df_B = true /\
    has_tag_row w df_A /\ has_tag_row w df_B.
Proof.
  split.
  - intros [r [Hp Hr]%stored_for_Some]. split; [done|].
    apply patient_result_Some in Hr
      as (file_A & file_B & df_A & df_B & row_A & row_B &
          Hd & Hf & HrA & HrB & HsA & HsB & _).
    split; [done|].
    destruct (proj1 (row_selector_is_Some w df_A)) as [HcA HtA]; [by eexists|].
    destruct (proj1 (row_selector_is_Some w df_B)) as [HcB HtB]; [by eexists|].
    by exists file_A, file_B, df_A, df_B.
  - intros (Hp & Hd & file_A & file_B & df_A & df_B &
            Hf & HrA & HrB & HcA & HcB & HtA & HtB).
    destruct (proj2 (row_selector_is_Some w df_A)) as [row_A HsA]; [done|].
    destruct (proj2 (row_selector_is_Some w df_B)) as [row_B HsB]; [done|].
    eexists. apply stored_for_Some. split; [done|].
    apply patient_result_Some.
    by exists file_A, file_B, df_A, df_B, row_A, row_B.
Qed.

(** The row keys of the three returned tables are the folders with stored
    records. *)
Lemma run_index (s : RunState) (delta_df A_df B_df : Table)
    (names : list string) (p : string) :
  calculate_delta_radiomics w root = (s, Normal (delta_df, A_df, B_df)) ->
  listdir w root = Ok names ->
  (p ∈ df_index delta_df <-> is_Some (stored_for w root names p)) /\
  (p ∈ df_index A_df <-> is_Some (stored_for w root names p)) /\
  (p ∈ df_index B_df <-> is_Some (stored_for w root names p)).
Proof.
  intros (names' & Hn' & Hloop & -> & -> & ->)%run_returns Hn.
  rewrite Hn in Hn'. injection Hn' as <-.
  destruct (run_dicts s names p Hn Hloop) as (HD & HA & HB).
  rewrite !elem_of_from_dict_index, HD, HA, HB, !fmap_is_Some. done.
Qed.

End Run.

(** * The claims *)

(** ** File Locator *)

(** C8. For each slot the File Locator returns the path of an entry of
    the listing that is a candidate for the slot, and no candidate of the
    listing has a path that is smaller in lexicographic order (so with
    several candidates the one with the least full path is returned); it
    returns nothing for a slot only when the listing has no candidate for
    it; and two listings of the same entries in different orders give the
    same two paths. *)
Theorem file_locator_least_path (w w' : World) (patient_path : string)
    (filenames filenames' : list string) :
  listdir w patient_path = Ok filenames ->
  listdir w' patient_path = Ok filenames' ->
  filenames ≡ₚ filenames' ->
  exists file_A file_B,
    _find_patient_ab_files w patient_path = Ok (file_A, file_B) /\
    _find_patient_ab_files w' patient_path = Ok (file_A, file_B) /\
    least_candidate time_A_candidate patient_path filenames file_A /\
    least_candidate time_B_candidate patient_path filenames file_B.
Proof.
  intros Hl Hl' Hp. unfold _find_patient_ab_files. rewrite Hl, Hl'.
  rewrite !find_in_listing_eq.
  destruct (scan_entries_perm patient_path _ _ Hp) as [HA HB].
  rewrite <- (first_sorted_perm _ _ HA), <- (first_sorted_perm _ _ HB).
  rewrite scan_entries_spec. simpl.
  eexists _, _. split_and!; try done; apply first_sorted_least_candidate.
Qed.

Lemma file_locator_least_path_witness :
  exists file_A file_B,
    _find_patient_ab_files
      (Examples.make_world [("data/P1", Ok ["s2_A.xlsx"; "s1_B.xlsx"; "s1_A.xlsx"])] []
         Examples.no_text_numbers Examples.no_numeric_labels) "data/P1"
      = Ok (file_A, file_B) /\
    _find_patient_ab_files
      (Examples.make_world [("data/P1", Ok ["s1_A.xlsx"; "s1_B.xlsx"; "s2_A.xlsx"])] []
         Examples.no_text_numbers Examples.no_numeric_labels) "data/P1"
      = Ok (file_A, file_B) /\
    least_candidate time_A_candidate "data/P1"
      ["s2_A.xlsx"; "s1_B.xlsx"; "s1_A.xlsx"] file_A /\
    least_candidate time_B_candidate "data/P1"
      ["s2_A.xlsx"; "s1_B.xlsx"; "s1_A.xlsx"] file_B.
Proof.
  apply (file_locator_least_path _ _ "data/P1"
           ["s2_A.xlsx"; "s1_B.xlsx"; "s1_A.xlsx"]
           ["s1_A.xlsx"; "s1_B.xlsx"; "s2_A.xlsx"]).
  - reflexivity.
  - reflexivity.
  - apply (Permutation_rev ["s2_A.xlsx"; "s1_B.xlsx"; "s1_A.xlsx"]).
Defined.

(** C9. The File Locator keeps an entry only if its name ends with
    [.xlsx]; a kept entry is a Time A candidate if its upper-cased name
    contains [_A], otherwise a Time B candidate if it contains [_B], and
    is ignored if it contains neither; no entry is a candidate for both
    slots, and the two returned paths are chosen among these candidates. *)
Theorem file_locator_classification (patient_path : string)
    (filenames : list string) :
  scan_entries patient_path filenames =
    (path_join patient_path <$> filter (fun f => time_A_candidate f = true) filenames,
     path_join patient_path <$> filter (fun f => time_B_candidate f = true) filenames) /\
  find_in_listing patient_path filenames =
    (PyStr.first_sorted (scan_entries patient_path filenames).1,
     PyStr.first_sorted (scan_entries patient_path filenames).2) /\
  forall (acc : list string * list string) (f : string),
    time_A_candidate f && time_B_candidate f = false /\
    scan_entry patient_path acc f =
      if PyStr.endswith f ".xlsx" then
        if PyStr.contains "_A" (PyStr.upper f)
        then (acc.1 ++ [path_join patient_path f], acc.2)
        else if PyStr.contains "_B" (PyStr.upper f)
        then (acc.1, acc.2 ++ [path_join patient_path f])
        else acc
      else acc.
Proof.
  split_and!.
  - apply scan_entries_spec.
  - apply find_in_listing_eq.
  - intros [a b] f. split.
    + unfold time_A_candidate, time_B_candidate.
      by destruct (eligible f), (PyStr.contains "_A" (PyStr.upper f)).
    + unfold scan_entry. rewrite endswith_path_join.
      by destruct (PyStr.endswith f ".xlsx").
Qed.

(** C10. An entry whose name ends with the extension in another
    letter-casing than lowercase [.xlsx] is not eligible: the loop leaves
    the candidate lists as they are and the entry is returned in neither
    slot, although the markers are matched on the upper-cased name. *)
Theorem extension_is_case_sensitive (w : World) (patient_path name : string)
    (filenames : list string) :
  PyStr.endswith (PyStr.upper name) ".XLSX" = true ->
  PyStr.endswith name ".xlsx" = false ->
  listdir w patient_path = Ok filenames ->
  eligible name = false /\
  (forall acc, scan_entry patient_path acc name = acc) /\
  (exists file_A file_B,
     _find_patient_ab_files w patient_path = Ok (file_A, file_B) /\
     file_A <> Some (path_join patient_path name) /\
     file_B <> Some (path_join patient_path name)) /\
  time_A_candidate "p1_a.xlsx" = true /\ time_B_candidate "p1_b.xlsx" = true.
Proof.
  intros _ Hext Hl. split_and!; try done.
  - intros [a b]. unfold scan_entry. by rewrite endswith_path_join, Hext.
  - unfold _find_patient_ab_files. rewrite Hl.
    destruct (find_in_listing patient_path filenames) as [file_A file_B] eqn:Hf.
    exists file_A, file_B. split; [done|].
    split; intros ->.
    + destruct (find_in_listing_Some patient_path filenames (path_join patient_path name))
        as (f & _ & Heq & Hf'); [rewrite Hf; auto|].
      unfold eligible in Hf'.
      by rewrite <- (endswith_path_join patient_path f), <- Heq,
        endswith_path_join, Hext in Hf'.
    + destruct (find_in_listing_Some patient_path filenames (path_join patient_path name))
        as (f & _ & Heq & Hf'); [rewrite Hf; auto|].
      unfold eligible in Hf'.
      by rewrite <- (endswith_path_join patient_path f), <- Heq,
        endswith_path_join, Hext in Hf'.
Qed.

Lemma extension_is_case_sensitive_witness :
  eligible "P1_A.XLSX" = false /\
  (forall acc, scan_entry "data/P001" acc "P1_A.XLSX" = acc) /\
  (exists file_A file_B,
     _find_patient_ab_files (Examples.p001_world Examples.no_text_numbers Examples.no_numeric_labels)
       "data/P001" = Ok (file_A, file_B) /\
     file_A <> Some (path_join "data/P001" "P1_A.XLSX") /\
     file_B <> Some (path_join "data/P001" "P1_A.XLSX")) /\
  time_A_candidate "p1_a.xlsx" = true /\ time_B_candidate "p1_b.xlsx" = true.
Proof.
  apply (extension_is_case_sensitive _ "data/P001" "P1_A.XLSX"
           ["P001_B.xlsx"; "P001_A.xlsx"; "P001_A.XLSX"]); reflexivity.
Defined.

(** ** Row Selector *)




(** The tag test never matches a missing label. *)
Lemma missing_label_no_match (w : World) : label_matches w CNull = false.
Proof. reflexivity. Qed.

Lemma match_here_prefix (tag s : string) :
  String.prefix tag s = true -> Re.match_here (Re.compile tag) s = true.
Proof.
  revert s. induction tag as [|c tag IH]; intros s; [done|].
  destruct s as [|d s]; [done|]. simpl.
  destruct (Ascii.ascii_dec c d) as [<-|]; [|done]. intros H.
  rewrite (IH s H), andb_true_r.
  destruct (Ascii.eqb c "."%char) eqn:Hdot; simpl.
  - apply Ascii.eqb_eq in Hdot as ->. done.
  - apply Ascii.eqb_refl.
Qed.

(** A label that holds the tag literally is matched. *)
Lemma literal_match_is_matched (w : World) (c : Cell) :
  literal_tag_match w c = true -> label_matches w c = true.
Proof.
  unfold literal_tag_match, label_matches, str_contains.
  induction (astype_str w c) as [|d s IH].
  - done.
  - cbn [PyStr.contains Re.search].
    intros [H|H]%orb_true_iff; apply orb_true_iff.
    + left. by apply (match_here_prefix selection_tag (String d s)).
    + right. by apply IH.
Qed.

(** C4. The tag test is made on the text of the label cell, a missing
    label being the text [nan], and never raises; but the tag is searched
    as a regular expression: the label [suv2x5], which does not contain
    the text [suv2.5], is selected. *)
Theorem tag_is_searched_as_regex (w : World) :
  literal_tag_match w (CStr "suv2x5") = false /\
  label_matches w (CStr "suv2x5") = true /\
  segmentation_mask w Examples.near_miss_sheet = Ok [true] /\
  row_selector w Examples.near_miss_sheet =
    Some [("FeatA", CNum 1); ("FeatB", CNum 2)].
Proof. by vm_compute. Qed.

(** ** Cohort Aggregator *)

Lemma prefix_append (s b : string) : String.prefix s (s +:+ b) = true.
Proof.
  induction s as [|c s IH]; [by destruct b|]. rewrite append_cons. simpl.
  by destruct (Ascii.ascii_dec c c).
Qed.

(** A text placed inside another one is contained in it. *)
Lemma contains_middle (a s b : string) :
  PyStr.contains s (a +:+ s +:+ b) = true.
Proof.
  induction a as [|c a IH].
  - change ("" +:+ s +:+ b) with (s +:+ b).
    destruct (s +:+ b) eqn:E; cbn [PyStr.contains]; rewrite <- E;
      by rewrite prefix_append.
  - rewrite append_cons. cbn [PyStr.contains]. rewrite IH. apply orb_true_r.
Qed.

(** A folder without both files contributes no records. *)
Lemma patient_result_incomplete (w : World) (root name : string)
    (file_A file_B : option string) :
  _find_patient_ab_files w (path_join root name) = Ok (file_A, file_B) ->
  file_A = None \/ file_B = None ->
  patient_result w root name = None.
Proof.
  intros Hf Hnone. unfold patient_result, located_pair. rewrite Hf.
  destruct (isdir w (path_join root name)); [|done].
  destruct Hnone as [-> | ->]; [done|]. by destruct file_A.
Qed.

(** A patient without stored records is in none of the three tables. *)
Lemma not_stored_not_in_tables (w : World) (root name : string) (s : RunState)
    (delta_df A_df B_df : Table) :
  calculate_delta_radiomics w root = (s, Normal (delta_df, A_df, B_df)) ->
  patient_result w root name = None ->
  (name ∉ df_index delta_df) /\ (name ∉ df_index A_df) /\ (name ∉ df_index B_df).
Proof.
  intros Hrun Hres.
  destruct (run_returns w root s _ _ _ Hrun) as (names & Hn & _).
  destruct (run_index w root s _ _ _ names name Hrun Hn) as (HD & HA & HB).
  assert (stored_for w root names name = None) as Hst.
  { unfold stored_for. rewrite Hres. by destruct (bool_decide _). }
  rewrite HD, HA, HB, Hst.
  split_and!; by intros [? ?].
Qed.

(** C6. A patient folder with a Time A file and no Time B file makes the
    iteration emit exactly one warning, which names the folder, and end;
    a folder without a Time A file makes it end with no warning.  In both
    cases the three dictionaries are left as they were and no spreadsheet
    is opened, and the patient is in none of the three tables of a run. *)
Theorem skip_policy (w : World) (root name : string)
    (file_A file_B : option string) :
  isdir w (path_join root name) = true ->
  _find_patient_ab_files w (path_join root name) = Ok (file_A, file_B) ->
  file_A = None \/ file_B = None ->
  (forall s, loop_body w root name s =
     (mkRunState (all_delta_radiomics s) (A_radiomics s) (B_radiomics s)
        (warnings s ++
           match file_A with
           | Some _ => [warning_message name]
           | None => []
           end)
        (excel_reads s), Continue)) /\
  PyStr.contains name (warning_message name) = true /\
  (forall s delta_df A_df B_df,
     calculate_delta_radiomics w root = (s, Normal (delta_df, A_df, B_df)) ->
     (name ∉ df_index delta_df) /\ (name ∉ df_index A_df) /\
     (name ∉ df_index B_df)).
Proof.
  intros Hd Hf Hnone. split_and!.
  - intros s. destruct file_A as [a|].
    + destruct Hnone as [? | ->]; [done|]. by apply (loop_body_A_only w root name a).
    + rewrite (loop_body_no_A w root name file_B s Hd Hf).
      destruct s. simpl. by rewrite app_nil_r.
  - apply contains_middle.
  - intros s delta_df A_df B_df Hrun.
    apply (not_stored_not_in_tables w root name s); [done|].
    by apply (patient_result_incomplete w root name file_A file_B).
Qed.

Lemma skip_policy_witness :
  (forall s, loop_body Examples.p002_world "data" "P002" s =
     (mkRunState (all_delta_radiomics s) (A_radiomics s) (B_radiomics s)
        (warnings s ++ [warning_message "P002"])
        (excel_reads s), Continue)) /\
  PyStr.contains "P002" (warning_message "P002") = true /\
  (forall s delta_df A_df B_df,
     calculate_delta_radiomics Examples.p002_world "data"
       = (s, Normal (delta_df, A_df, B_df)) ->
     ("P002" ∉ df_index delta_df) /\ ("P002" ∉ df_index A_df) /\
     ("P002" ∉ df_index B_df)).
Proof.
  apply (skip_policy Examples.p002_world "data" "P002"
           (Some "data/P002/P002_A.xlsx") None).
  - reflexivity.
  - reflexivity.
  - right. reflexivity.
Defined.

(** C1 (as the code has it). In a run that returns, a patient folder is
    a row key of the Delta table exactly when the File Locator finds a Time
    A and a Time B file for it, both files load, and both tables have the
    [Segmentation] column and a row whose label matches the tag.  Whether
    a feature survives plays no part in that: it decides only whether the
    row of the patient holds any value, which it does exactly when, in
    addition, some feature is a number in both selected rows with a
    difference that is not missing. *)
Theorem delta_table_membership (w : World) (root : string)
    (names : list string) (s : RunState)
    (delta_df A_df B_df : Table) (p : string) :
  calculate_delta_radiomics w root = (s, Normal (delta_df, A_df, B_df)) ->
  listdir w root = Ok names ->
  p ∈ names ->
  isdir w (path_join root p) = true ->
  (p ∈ df_index delta_df <->
   exists file_A file_B df_A df_B,
     _find_patient_ab_files w (path_join root p) = Ok (Some file_A, Some file_B) /\
     read_excel w file_A = Ok df_A /\ read_excel w file_B = Ok df_B /\
     has_column label_column df_A = true /\ has_column label_column df_B = true /\
     has_tag_row w df_A /\ has_tag_row w df_B) /\
  (df_row delta_df p <> ∅ <->
   exists file_A file_B df_A df_B,
     _find_patient_ab_files w (path_join root p) = Ok (Some file_A, Some file_B) /\
     read_excel w file_A = Ok df_A /\ read_excel w file_B = Ok df_B /\
     has_column label_column df_A = true /\ has_column label_column df_B = true /\
     has_tag_row w df_A /\ has_tag_row w df_B /\
     exists feature a b,
       selected_value w df_A feature = Some a /\
       selected_value w df_B feature = Some b /\
       is_nan a = false /\ is_nan b = false /\
       is_nan (b - a)%float = false).
Proof.
  intros Hrun Hn Hp Hd. split.
  - destruct (run_index w root s _ _ _ names p Hrun Hn) as (-> & _ & _).
    rewrite stored_for_is_Some. split.
    + by intros (_ & _ & H).
    + by intros H.
  - apply run_returns in Hrun as (names' & Hn' & Hloop & -> & _ & _).
    rewrite Hn in Hn'. injection Hn' as <-.
    destruct (run_dicts w root s names p Hn Hloop) as (HD & _ & _).
    assert (stored_for w root names p = patient_result w root p) as Hst.
    { unfold stored_for. by rewrite bool_decide_eq_true_2. }
    rewrite Hst in HD. rewrite df_row_nonempty. split.
    + intros (record & Hrec & Hne). rewrite HD in Hrec.
      destruct (patient_result w root p) as [r|] eqn:Hr; [|done].
      simpl in Hrec. injection Hrec as <-.
      apply patient_result_Some in Hr
        as (file_A & file_B & df_A & df_B & row_A & row_B &
            _ & Hf & HrA & HrB & HsA & HsB & ->).
      simpl in Hne.
      apply (delta_nonempty w df_A df_B row_A row_B HsA HsB) in Hne
        as (feature & a & b & Ha & Hb & Hv).
      destruct (proj1 (row_selector_is_Some w df_A)) as [HcA HtA]; [by eexists|].
      destruct (proj1 (row_selector_is_Some w df_B)) as [HcB HtB]; [by eexists|].
      destruct (sub_not_nan b a Hv) as [Hnb Hna].
      exists file_A, file_B, df_A, df_B. split_and!; try done.
      by exists feature, a, b.
    + intros (file_A & file_B & df_A & df_B & Hf & HrA & HrB & HcA & HcB & HtA & HtB &
              feature & a & b & Ha & Hb & _ & _ & Hv).
      destruct (proj2 (row_selector_is_Some w df_A)) as [row_A HsA]; [done|].
      destruct (proj2 (row_selector_is_Some w df_B)) as [row_B HsB]; [done|].
      exists (dropna (series_sub (to_numeric w row_B) (to_numeric w row_A))).
      split.
      * rewrite HD.
        assert (patient_result w root p =
                Some (dropna (series_sub (to_numeric w row_B) (to_numeric w row_A)),
                      dropna_to_dict (to_numeric w row_A),
                      dropna_to_dict (to_numeric w row_B))) as ->; [|done].
        apply patient_result_Some.
        by exists file_A, file_B, df_A, df_B, row_A, row_B.
      * apply (delta_nonempty w df_A df_B row_A row_B HsA HsB).
        by exists feature, a, b.
Qed.
Lemma delta_table_membership_witness :
  ("P001" ∈ df_index (from_dict_index {["P001" := {["FeatA" := 2%float]}]}) <->
   exists file_A file_B df_A df_B,
     _find_patient_ab_files
       (Examples.p001_world Examples.no_text_numbers Examples.no_numeric_labels)
       (path_join "data" "P001") = Ok (Some file_A, Some file_B) /\
     read_excel
       (Examples.p001_world Examples.no_text_numbers Examples.no_numeric_labels)
       file_A = Ok df_A /\
     read_excel
       (Examples.p001_world Examples.no_text_numbers Examples.no_numeric_labels)
       file_B = Ok df_B /\
     has_column label_column df_A = true /\ has_column label_column df_B = true /\
     has_tag_row
       (Examples.p001_world Examples.no_text_numbers Examples.no_numeric_labels) df_A /\
     has_tag_row
       (Examples.p001_world Examples.no_text_numbers Examples.no_numeric_labels) df_B) /\
  (df_row (from_dict_index {["P001" := {["FeatA" := 2%float]}]}) "P001" <> ∅ <->
   exists file_A file_B df_A df_B,
     _find_patient_ab_files
       (Examples.p001_world Examples.no_text_numbers Examples.no_numeric_labels)
       (path_join "data" "P001") = Ok (Some file_A, Some file_B) /\
     read_excel
       (Examples.p001_world Examples.no_text_numbers Examples.no_numeric_labels)
       file_A = Ok df_A /\
     read_excel
       (Examples.p001_world Examples.no_text_numbers Examples.no_numeric_labels)
       file_B = Ok df_B /\
     has_column label_column df_A = true /\ has_column label_column df_B = true /\
     has_tag_row
       (Examples.p001_world Examples.no_text_numbers Examples.no_numeric_labels) df_A /\
     has_tag_row
       (Examples.p001_world Examples.no_text_numbers Examples.no_numeric_labels) df_B /\
     exists feature a b,
       selected_value
         (Examples.p001_world Examples.no_text_numbers Examples.no_numeric_labels)
         df_A feature = Some a /\
       selected_value
         (Examples.p001_world Examples.no_text_numbers Examples.no_numeric_labels)
         df_B feature = Some b /\
       is_nan a = false /\ is_nan b = false /\
       is_nan (b - a)%float = false).
Proof.
  apply (delta_table_membership
           (Examples.p001_world Examples.no_text_numbers Examples.no_numeric_labels)
           "data" ["P001"; "readme.txt"]
           (mkRunState {["P001" := {["FeatA" := 2%float]}]}
              {["P001" := {["FeatA" := 1%float]}]}
              {["P001" := <["FeatA" := 3%float]> {["FeatB" := 5%float]}]}
              [] ["data/P001/P001_A.xlsx"; "data/P001/P001_B.xlsx"])
           _
           (from_dict_index {["P001" := {["FeatA" := 1%float]}]})
           (from_dict_index
              {["P001" := <["FeatA" := 3%float]> {["FeatB" := 5%float]}]})
           "P001").
  - vm_compute. reflexivity.
  - reflexivity.
  - apply elem_of_cons. by left.
  - reflexivity.
Defined.

(** C1 (as stated) fails: patient P004 has FeatA as a number at Time A
    only and FeatB at Time B only, so no feature is a number in both
    selected rows and its Delta Record is empty; the run returns and P004
    is a row key of the Delta table all the same, with no value in its
    row. *)
Lemma empty_record_is_row_key :
  calculate_delta_radiomics Examples.p004_world "data"
    = (Examples.p004_final,
       Normal (from_dict_index (all_delta_radiomics Examples.p004_final),
               from_dict_index (A_radiomics Examples.p004_final),
               from_dict_index (B_radiomics Examples.p004_final))) /\
  read_excel Examples.p004_world "data/P004/P004_A.xlsx" = Ok Examples.p004_A /\
  read_excel Examples.p004_world "data/P004/P004_B.xlsx" = Ok Examples.p004_B /\
  "P004" ∈ df_index (from_dict_index (all_delta_radiomics Examples.p004_final)) /\
  df_row (from_dict_index (all_delta_radiomics Examples.p004_final)) "P004" = ∅ /\
  ~ (exists feature a b,
       selected_value Examples.p004_world Examples.p004_A feature = Some a /\
       selected_value Examples.p004_world Examples.p004_B feature = Some b /\
       is_nan a = false /\ is_nan b = false).
Proof.
  split_and!.
  - vm_compute. reflexivity.
  - reflexivity.
  - reflexivity.
  - apply elem_of_from_dict_index. by eexists.
  - by rewrite df_row_from_dict_index.
  - intros (feature & a & b & Ha & Hb & Hna & Hnb).
    assert (row_selector Examples.p004_world Examples.p004_A
            = Some [("FeatA", CNum 1); ("FeatB", CNull)]) as HrA
      by (vm_compute; reflexivity).
    assert (row_selector Examples.p004_world Examples.p004_B
            = Some [("FeatA", CNull); ("FeatB", CNum 5)]) as HrB
      by (vm_compute; reflexivity).
    unfold selected_value in Ha, Hb. rewrite HrA in Ha. rewrite HrB in Hb.
    simpl in Ha, Hb.
    destruct (decide (feature = "FeatA")) as [->|HA].
    + rewrite lookup_insert_eq in Hb. injection Hb as <-. done.
    + rewrite lookup_insert_ne in Ha by done.
      destruct (decide (feature = "FeatB")) as [->|HB].
      * rewrite lookup_insert_eq in Ha. injection Ha as <-. done.
      * by rewrite lookup_insert_ne, lookup_empty in Ha.
Qed.

(** C5. In a run that returns, the Delta table, the A table and the B
    table have the same row keys: a patient folder is a row key of one of
    them exactly when it is a row key of all three. *)
Theorem tables_share_row_keys (w : World) (root : string) (s : RunState)
    (delta_df A_df B_df : Table) :
  calculate_delta_radiomics w root = (s, Normal (delta_df, A_df, B_df)) ->
  df_index delta_df = df_index A_df /\
  df_index A_df = df_index B_df /\
  forall p,
    p ∈ df_index delta_df \/ p ∈ df_index A_df \/ p ∈ df_index B_df ->
    p ∈ df_index delta_df /\ p ∈ df_index A_df /\ p ∈ df_index B_df.
Proof.
  intros Hrun.
  destruct (run_returns w root s _ _ _ Hrun) as (names & Hn & _).
  pose proof (fun p => run_index w root s _ _ _ names p Hrun Hn) as Hidx.
  split_and!.
  - apply set_eq. intros p. destruct (Hidx p) as (-> & -> & _). done.
  - apply set_eq. intros p. destruct (Hidx p) as (_ & -> & ->). done.
  - intros p. destruct (Hidx p) as (-> & -> & ->). tauto.
Qed.

Lemma tables_share_row_keys_witness :
  df_index (from_dict_index (all_delta_radiomics Examples.mixed_final))
    = df_index (from_dict_index (A_radiomics Examples.mixed_final)) /\
  df_index (from_dict_index (A_radiomics Examples.mixed_final))
    = df_index (from_dict_index (B_radiomics Examples.mixed_final)) /\
  forall p,
    p ∈ df_index (from_dict_index (all_delta_radiomics Examples.mixed_final)) \/
    p ∈ df_index (from_dict_index (A_radiomics Examples.mixed_final)) \/
    p ∈ df_index (from_dict_index (B_radiomics Examples.mixed_final)) ->
    p ∈ df_index (from_dict_index (all_delta_radiomics Examples.mixed_final)) /\
    p ∈ df_index (from_dict_index (A_radiomics Examples.mixed_final)) /\
    p ∈ df_index (from_dict_index (B_radiomics Examples.mixed_final)).
Proof.
  apply (tables_share_row_keys Examples.mixed_world "data" Examples.mixed_final).
  vm_compute. reflexivity.
Defined.


(** The records of the rows {FeatA: 1.0, FeatB: x} and
    {FeatA: 3.0, FeatB: 5.0} when [x] is NaN. *)
Lemma two_feature_records (x : float) :
  is_nan x = true ->
  dropna (series_sub [("FeatA", 3%float); ("FeatB", 5%float)]
            [("FeatA", 1%float); ("FeatB", x)])
    = {["FeatA" := 2%float]} /\
  dropna_to_dict [("FeatA", 1%float); ("FeatB", x)] = {["FeatA" := 1%float]} /\
  dropna_to_dict [("FeatA", 3%float); ("FeatB", 5%float)]
    = <["FeatA" := 3%float]> {["FeatB" := 5%float]}.
Proof.
  intros Hx. split_and!; apply map_eq; intros k; apply option_eq; intros v.
  - rewrite delta_lookup. simpl.
    destruct (decide (k = "FeatA")) as [->|HA].
    + rewrite !lookup_insert_eq, lookup_singleton_eq. split.
      * by intros (b & a & [= <-] & [= <-] & -> & _).
      * intros [= <-]. by exists 3%float, 1%float.
    + rewrite !(lookup_insert_ne _ "FeatA") by done.
      rewrite lookup_singleton_ne by done.
      destruct (decide (k = "FeatB")) as [->|HB].
      * rewrite !lookup_insert_eq. split; [|done].
        intros (b & a & [= <-] & [= <-] & -> & Hv).
        by rewrite (sub_nan_r _ _ Hx) in Hv.
      * rewrite !lookup_insert_ne, lookup_empty by done.
        split; [by intros (? & ? & ? & _)|done].
  - unfold dropna_to_dict. rewrite dropna_lookup. simpl.
    destruct (decide (k = "FeatA")) as [->|HA].
    + rewrite lookup_insert_eq, lookup_singleton_eq. split; [by intros [? _]|].
      by intros [= <-].
    + rewrite lookup_insert_ne, lookup_singleton_ne by done.
      destruct (decide (k = "FeatB")) as [->|HB].
      * rewrite lookup_insert_eq. split; [|done]. intros [[= <-] Hv]. congruence.
      * rewrite lookup_insert_ne, lookup_empty by done. split; [by intros [? _]|done].
  - unfold dropna_to_dict. rewrite dropna_lookup. simpl.
    split; [by intros [? _]|]. intros Hk. split; [done|].
    destruct (decide (k = "FeatA")) as [->|HA].
    + rewrite lookup_insert_eq in Hk. by injection Hk as <-.
    + rewrite lookup_insert_ne in Hk by done.
      apply lookup_singleton_Some in Hk as [_ <-]. done.
Qed.

(** C3. Patient P001 with Time A row {FeatA: 1.0, FeatB: "n/a"} and Time
    B row {FeatA: 3.0, FeatB: 5.0}: the run returns, the Delta Record is
    {FeatA: 2.0} with no entry for FeatB, the row of the A table is
    {FeatA: 1.0} and the row of the B table is {FeatA: 3.0, FeatB: 5.0}. *)
Theorem p001_records (to_float : string -> float) (float_str : float -> string) :
  is_nan (to_float "n/a") = true ->
  exists s delta_df A_df B_df,
    calculate_delta_radiomics (Examples.p001_world to_float float_str) "data"
      = (s, Normal (delta_df, A_df, B_df)) /\
    all_delta_radiomics s !! "P001" = Some {["FeatA" := 2%float]} /\
    all_delta_radiomics s !! "P001" ≫= (fun r => r !! "FeatB") = None /\
    df_row delta_df "P001" = {["FeatA" := 2%float]} /\
    df_row A_df "P001" = {["FeatA" := 1%float]} /\
    df_row B_df "P001" = <["FeatA" := 3%float]> {["FeatB" := 5%float]}.
Proof.
  intros Hnan. set (w := Examples.p001_world to_float float_str).
  destruct (run_total w "data" ["P001"; "readme.txt"]) as [s Hrun]; [done| |].
  { repeat constructor; unfold listable; intros H;
      vm_compute in H |- *; congruence. }
  exists s, (from_dict_index (all_delta_radiomics s)),
    (from_dict_index (A_radiomics s)), (from_dict_index (B_radiomics s)).
  split; [done|].
  apply run_returns in Hrun as (names & Hn & Hloop & _).
  destruct (run_dicts w "data" s names "P001" Hn Hloop) as (HD & HA & HB).
  injection Hn as <-.
  assert (stored_for w "data" ["P001"; "readme.txt"] "P001" =
          Some (dropna (series_sub [("FeatA", 3%float); ("FeatB", 5%float)]
                          [("FeatA", 1%float); ("FeatB", to_float "n/a")]),
                dropna_to_dict [("FeatA", 1%float); ("FeatB", to_float "n/a")],
                dropna_to_dict [("FeatA", 3%float); ("FeatB", 5%float)])) as Hst.
  { unfold stored_for. rewrite bool_decide_eq_true_2 by (apply elem_of_cons; by left).
    apply patient_result_Some.
    exists "data/P001/P001_A.xlsx", "data/P001/P001_B.xlsx",
      Examples.p001_A, Examples.p001_B,
      [("FeatA", CNum 1); ("FeatB", CStr "n/a")],
      [("FeatA", CNum 3); ("FeatB", CNum 5)].
    split_and!; reflexivity. }
  destruct (two_feature_records (to_float "n/a") Hnan) as (Ed & Ea & Eb).
  rewrite Hst, Ed, Ea, Eb in *. simpl in HD, HA, HB.
  rewrite !df_row_from_dict_index, HD, HA, HB. simpl.
  split_and!; try done.
Qed.

Lemma p001_records_witness :
  exists s delta_df A_df B_df,
    calculate_delta_radiomics
      (Examples.p001_world Examples.no_text_numbers Examples.no_numeric_labels) "data"
      = (s, Normal (delta_df, A_df, B_df)) /\
    all_delta_radiomics s !! "P001" = Some {["FeatA" := 2%float]} /\
    all_delta_radiomics s !! "P001" ≫= (fun r => r !! "FeatB") = None /\
    df_row delta_df "P001" = {["FeatA" := 2%float]} /\
    df_row A_df "P001" = {["FeatA" := 1%float]} /\
    df_row B_df "P001" = <["FeatA" := 3%float]> {["FeatB" := 5%float]}.
Proof.
  apply (p001_records Examples.no_text_numbers Examples.no_numeric_labels).
  reflexivity.
Defined.

(** C2 (what the code does). The File Locator runs outside the [try]
    block: when the folder of P001 cannot be listed the exception leaves
    the loop and the run, no table is returned and the complete patient
    P002 is never looked at.  A corrupt spreadsheet of P001, inside the
    [try] block, only skips P001. *)
Theorem listing_fault_aborts_run :
  calculate_delta_radiomics Examples.unreadable_world "data"
    = (initial_state, Raised) /\
  calculate_delta_radiomics Examples.corrupt_world "data"
    = (mkRunState {["P002" := {["FeatA" := 2%float]}]}
         {["P002" := {["FeatA" := 1%float]}]}
         {["P002" := <["FeatA" := 3%float]> {["FeatB" := 5%float]}]}
         []
         ["data/P001/P001_A.xlsx"; "data/P002/P002_A.xlsx";
          "data/P002/P002_B.xlsx"],
       Normal (mkTable {["P002"]} {["FeatA" := {["P002" := 2%float]}]},
               mkTable {["P002"]} {["FeatA" := {["P002" := 1%float]}]},
               mkTable {["P002"]}
                 (<["FeatA" := {["P002" := 3%float]}]>
                    {["FeatB" := {["P002" := 5%float]}]}))).
Proof. split; vm_compute; reflexivity. Qed.

(** * Further properties *)

(** ** The run as a whole *)

(** X1. [calculate_delta_radiomics] returns, rather than raising, exactly
    when [os.listdir] succeeds on the root folder and on every entry of
    the root that is a directory. *)
Theorem run_returns_iff_listable (w : World) (root : string) :
  (exists s tables, calculate_delta_radiomics w root = (s, Normal tables)) <->
  exists names, listdir w root = Ok names /\ Forall (listable w root) names.
Proof.
  split.
  - intros (s & [[delta_df A_df] B_df] & (names & Hn & Hloop & _)%run_returns).
    exists names. split; [done|].
    destruct (for_each_spec w root _ _ _ _ Hloop) as (_ & Hall & _); [done|].
    rewrite Forall_forall in Hall |- *. intros x Hx. apply Hall.
    by apply elem_of_sorted.
  - intros (names & Hn & Hall).
    destruct (run_total w root names Hn Hall) as [s Hs]. by eexists _, _.
Qed.

Section ListingOrder.

Lemma insert_sorted_Sorted (x : string) (l : list string) :
  Sorted String.le l -> Sorted String.le (PyStr.insert_sorted x l).
Proof.
  induction 1 as [|y l Hl IH Hhd]; simpl.
  - by repeat constructor.
  - destruct (PyStr.lt y x) eqn:Hyx.
    + constructor; [done|].
      destruct l as [|z l]; simpl in *.
      * constructor. by apply lt_true_le.
      * destruct (PyStr.lt z x); constructor;
          [by inversion Hhd|by apply lt_true_le].
    + apply lt_false_le in Hyx. by repeat constructor.
Qed.

Lemma sorted_Sorted (l : list string) : Sorted String.le (PyStr.sorted l).
Proof.
  induction l as [|x l IH]; simpl; [constructor|].
  by apply insert_sorted_Sorted.
Qed.

(** [sorted] gives the same list for every order of its argument. *)
Lemma sorted_perm_eq (l l' : list string) :
  l ≡ₚ l' -> PyStr.sorted l = PyStr.sorted l'.
Proof.
  intros Hp. apply (Sorted_unique String.le); try apply sorted_Sorted.
  by rewrite !sorted_perm.
Qed.

Lemma find_in_listing_perm (p : string) (l l' : list string) :
  l ≡ₚ l' -> find_in_listing p l = find_in_listing p l'.
Proof.
  intros Hp. rewrite !find_in_listing_eq.
  destruct (scan_entries_perm p _ _ Hp) as [HA HB].
  by rewrite (first_sorted_perm _ _ HA), (first_sorted_perm _ _ HB).
Qed.

Lemma for_each_ext (f g : string -> M unit) (l : list string) (s : RunState) :
  (forall x s, f x s = g x s) -> for_each f l s = for_each g l s.
Proof.
  intros Hfg. revert s. induction l as [|x l IH]; intros s; simpl; [done|].
  rewrite Hfg. destruct (g x s) as [s' [[]| |]]; by rewrite ?IH.
Qed.

Lemma find_with_listdir (w : World) (listdir' : string -> result (list string))
    (p : string) :
  same_entries (listdir w p) (listdir' p) ->
  _find_patient_ab_files (with_listdir w listdir') p = _find_patient_ab_files w p.
Proof.
  unfold _find_patient_ab_files, same_entries. simpl.
  destruct (listdir w p) as [l|], (listdir' p) as [l'|]; try done.
  intros Hp. by rewrite (find_in_listing_perm p l l' Hp).
Qed.

Lemma loop_body_with_listdir (w : World) (listdir' : string -> result (list string))
    (root name : string) (s : RunState) :
  (forall p, same_entries (listdir w p) (listdir' p)) ->
  loop_body (with_listdir w listdir') root name s = loop_body w root name s.
Proof.
  intros H. unfold loop_body. rewrite (find_with_listdir w listdir' _ (H _)).
  reflexivity.
Qed.

End ListingOrder.

(** X2. The whole result of a run (the three tables, the three
    dictionaries, the warnings and the spreadsheets opened, each in its
    order) does not depend on the order in which [os.listdir] enumerates
    the root folder or any patient folder. *)
Theorem run_independent_of_listing_order (w : World)
    (listdir' : string -> result (list string)) (root : string) :
  (forall p, same_entries (listdir w p) (listdir' p)) ->
  calculate_delta_radiomics (with_listdir w listdir') root =
  calculate_delta_radiomics w root.
Proof.
  intros H. unfold calculate_delta_radiomics, run_statements, mbind, M_bind, call.
  pose proof (H root) as Hroot. unfold same_entries in Hroot. simpl.
  destruct (listdir w root) as [names|], (listdir' root) as [names'|]; try done.
  rewrite <- (sorted_perm_eq names names' Hroot).
  rewrite (for_each_ext (loop_body (with_listdir w listdir') root) (loop_body w root)); [done|].
  intros x s. by apply loop_body_with_listdir.
Qed.

Lemma run_independent_of_listing_order_witness :
  calculate_delta_radiomics
    (with_listdir
       (Examples.p001_world Examples.no_text_numbers Examples.no_numeric_labels)
       (fun p =>
          match listdir (Examples.p001_world Examples.no_text_numbers
                           Examples.no_numeric_labels) p with
          | Ok l => Ok (rev l)
          | Raise => Raise
          end)) "data" =
  calculate_delta_radiomics
    (Examples.p001_world Examples.no_text_numbers Examples.no_numeric_labels) "data".
Proof.
  apply (run_independent_of_listing_order
           (Examples.p001_world Examples.no_text_numbers Examples.no_numeric_labels)).
  intros p. unfold same_entries.
  destruct (listdir _ p) as [l|]; [apply Permutation_rev|exact I].
Defined.

Section SideEffects.

Context (w : World) (root : string).

(** The warnings and the spreadsheet reads of one iteration that ends
    without an exception. *)
Lemma loop_body_effects (name : string) (s s' : RunState) (o : outcome unit) :
  loop_body w root name s = (s', o) -> o <> Raised ->
  warnings s' = warnings s ++ iteration_warnings w root name /\
  excel_reads s' = excel_reads s ++ iteration_reads w root name.
Proof.
  unfold iteration_warnings, iteration_reads, located_pair. intros Hb Ho.
  destruct (isdir w (path_join root name)) eqn:Hd.
  - destruct (_find_patient_ab_files w (path_join root name))
      as [[[file_A|] [file_B|]]|] eqn:Hf.
    + rewrite (loop_body_both _ _ _ _ _ _ Hd Hf) in Hb.
      destruct (try_block_spec w name file_A file_B s)
        as (s1 & o1 & Hs1 & _ & _ & Hw & Hr).
      rewrite Hs1 in Hb. injection Hb as <- <-.
      by rewrite Hw, Hr, app_nil_r.
    + rewrite (loop_body_A_only _ _ _ _ _ Hd Hf) in Hb.
      injection Hb as <- <-. simpl. by rewrite app_nil_r.
    + rewrite (loop_body_no_A _ _ _ _ _ Hd Hf) in Hb.
      injection Hb as <- <-. by rewrite !app_nil_r.
    + rewrite (loop_body_no_A _ _ _ _ _ Hd Hf) in Hb.
      injection Hb as <- <-. by rewrite !app_nil_r.
    + unfold _find_patient_ab_files in Hf.
      destruct (listdir w (path_join root name)) eqn:Hl; [done|].
      rewrite (loop_body_unlistable _ _ _ _ Hd Hl) in Hb. by simplify_eq.
  - rewrite (loop_body_not_dir _ _ _ _ Hd) in Hb.
    injection Hb as <- <-. by rewrite !app_nil_r.
Qed.

Lemma for_each_effects (l : list string) (s s' : RunState) (o : outcome unit) :
  for_each (loop_body w root) l s = (s', o) -> o <> Raised ->
  warnings s' = warnings s ++ concat (iteration_warnings w root <$> l) /\
  excel_reads s' = excel_reads s ++ concat (iteration_reads w root <$> l).
Proof.
  revert s. induction l as [|x l IH]; intros s; cbn [for_each].
  - intros [= <- <-] _. simpl. by rewrite !app_nil_r.
  - destruct (loop_body w root x s) as [s1 o1] eqn:Hx.
    assert (o1 = Raised \/ o1 <> Raised) as [->|Ho1]
      by (destruct o1; auto). { by intros [= <- <-] ?. }
    intros Hrest Ho.
    assert (for_each (loop_body w root) l s1 = (s', o)) as Hl
      by (by destruct o1).
    destruct (IH _ Hl Ho) as [-> ->].
    destruct (loop_body_effects x s s1 o1 Hx Ho1) as [-> ->].
    rewrite fmap_cons. simpl. by rewrite <- !app_assoc.
Qed.

End SideEffects.

(** X3. A run that returns has emitted exactly one warning for each root
    entry that is a directory with a Time A file and no Time B file, in
    sorted order of the entries, and no other warning; and it has opened
    exactly the spreadsheets of the entries with both files, in the same
    order, the Time B file of an entry only after its Time A file has
    loaded. *)
Theorem run_side_effects (w : World) (root : string) (names : list string)
    (s : RunState)
    (tables : Table * Table * Table) :
  calculate_delta_radiomics w root = (s, Normal tables) ->
  listdir w root = Ok names ->
  warnings s = concat (iteration_warnings w root <$> PyStr.sorted names) /\
  excel_reads s = concat (iteration_reads w root <$> PyStr.sorted names).
Proof.
  destruct tables as [[delta_df A_df] B_df].
  intros (names' & Hn' & Hloop & _)%run_returns Hn.
  rewrite Hn in Hn'. injection Hn' as <-.
  by destruct (for_each_effects w root _ _ _ _ Hloop).
Qed.

Lemma run_side_effects_witness :
  warnings
    (mkRunState ∅ ∅ ∅
       ["Patient P002 has Time A file but missing Time B file. Skipping."] []) =
    concat (iteration_warnings Examples.p002_world "data"
              <$> PyStr.sorted ["P002"; "P003"; "P005"]) /\
  excel_reads
    (mkRunState ∅ ∅ ∅
       ["Patient P002 has Time A file but missing Time B file. Skipping."] []) =
    concat (iteration_reads Examples.p002_world "data"
              <$> PyStr.sorted ["P002"; "P003"; "P005"]).
Proof.
  apply (run_side_effects Examples.p002_world "data" ["P002"; "P003"; "P005"]
           _ (from_dict_index ∅, from_dict_index ∅, from_dict_index ∅)).
  - vm_compute. reflexivity.
  - reflexivity.
Defined.

(** ** The cells of the returned tables *)

Section Cells.

Context (w : World) (root : string).

(** A cell of a returned table is a value of the records of its patient. *)
Lemma run_cells (s : RunState)
    (delta_df A_df B_df : Table) (feature p : string) :
  calculate_delta_radiomics w root = (s, Normal (delta_df, A_df, B_df)) ->
  exists names, listdir w root = Ok names /\
    frame_at delta_df feature p =
      stored_for w root names p ≫= (fun r => r.1.1 !! feature) /\
    frame_at A_df feature p =
      stored_for w root names p ≫= (fun r => r.1.2 !! feature) /\
    frame_at B_df feature p =
      stored_for w root names p ≫= (fun r => r.2 !! feature).
Proof.
  intros (names & Hn & Hloop & -> & -> & ->)%run_returns.
  exists names. split; [done|].
  destruct (run_dicts w root s names p Hn Hloop) as (HD & HA & HB).
  rewrite !frame_at_from_dict_index, HD, HA, HB.
  by destruct (stored_for w root names p).
Qed.

(** The selected row is the feature block of a row of the table. *)
Lemma row_selector_Some_drop (df : DataFrame) (row : list (string * Cell)) :
  row_selector w df = Some row ->
  exists r, r ∈ rows df /\ row = drop feature_start_col (zip (columns df) r).
Proof.
  intros Hrow.
  destruct (proj1 (row_selector_is_Some w df)) as [Hc Ht]; [by eexists|].
  destruct (row_selector_first w df Hc Ht) as (j & i & r & _ & Hi & _ & _ & Hsel).
  exists r. split; [by eapply list_elem_of_lookup_2|]. congruence.
Qed.

(** A feature of a numeric row is the name of a column at or beyond the
    start offset. *)
Lemma numeric_row_column (cols : list string) (r : list Cell) (n : nat)
    (feature : string) (v : float) :
  (list_to_map (to_numeric w (drop n (zip cols r))) : gmap string float)
    !! feature = Some v ->
  exists k, n <= k /\ cols !! k = Some feature.
Proof.
  intros Hin%elem_of_list_to_map_2. unfold to_numeric in Hin.
  apply list_elem_of_In, in_map_iff in Hin as ([name c] & [= <- _] & Hin).
  apply list_elem_of_In, list_elem_of_lookup in Hin as [i Hi].
  rewrite lookup_drop in Hi. unfold zip in Hi.
  apply lookup_zip_with_Some in Hi as (x & y & [= <- <-] & Hx & _).
  exists (n + i). split; [lia|done].
Qed.

End Cells.

Section FeatureColumns.

Context (w : World) (root : string).

(** The features of the records of a patient are names of columns at or
    beyond the start offset of the patient's two sheets. *)
Lemma record_features (p : string)
    (r : gmap string float * gmap string float * gmap string float) :
  patient_result w root p = Some r ->
  exists file_A file_B df_A df_B,
    _find_patient_ab_files w (path_join root p) = Ok (Some file_A, Some file_B) /\
    read_excel w file_A = Ok df_A /\ read_excel w file_B = Ok df_B /\
    (forall feature, is_Some (r.1.2 !! feature) ->
       exists k, feature_start_col <= k /\ columns df_A !! k = Some feature) /\
    (forall feature, is_Some (r.2 !! feature) ->
       exists k, feature_start_col <= k /\ columns df_B !! k = Some feature) /\
    (forall feature, is_Some (r.1.1 !! feature) ->
       is_Some (r.1.2 !! feature) /\ is_Some (r.2 !! feature)).
Proof.
  intros (file_A & file_B & df_A & df_B & row_A & row_B &
          _ & Hf & HrA & HrB & HsA & HsB & ->)%patient_result_Some.
  exists file_A, file_B, df_A, df_B. simpl.
  apply row_selector_Some_drop in HsA as (rA & _ & ->).
  apply row_selector_Some_drop in HsB as (rB & _ & ->).
  split_and!; try done.
  - intros feature [v [Hv _]%dropna_lookup]. by eapply numeric_row_column.
  - intros feature [v [Hv _]%dropna_lookup]. by eapply numeric_row_column.
  - intros feature Hd. by apply delta_in_both.
Qed.

End FeatureColumns.

(** X6. Every feature that has a value in a returned table is the name
    of a column at zero-based offset 23 or beyond of the patient's sheet
    (the Time A sheet for the A table, the Time B sheet for the B table,
    both for the Delta table): the 23 columns in front never give a
    feature. *)
Theorem features_are_feature_columns (w : World) (root : string) (s : RunState)
    (delta_df A_df B_df : Table) (feature p : string) :
  calculate_delta_radiomics w root = (s, Normal (delta_df, A_df, B_df)) ->
  is_Some (frame_at delta_df feature p) \/
  is_Some (frame_at A_df feature p) \/
  is_Some (frame_at B_df feature p) ->
  exists file_A file_B df_A df_B,
    _find_patient_ab_files w (path_join root p) = Ok (Some file_A, Some file_B) /\
    read_excel w file_A = Ok df_A /\ read_excel w file_B = Ok df_B /\
    (is_Some (frame_at A_df feature p) ->
       exists k, 23 <= k /\ columns df_A !! k = Some feature) /\
    (is_Some (frame_at B_df feature p) ->
       exists k, 23 <= k /\ columns df_B !! k = Some feature) /\
    (is_Some (frame_at delta_df feature p) ->
       (exists k, 23 <= k /\ columns df_A !! k = Some feature) /\
       (exists k, 23 <= k /\ columns df_B !! k = Some feature)).
Proof.
  intros (names & _ & -> & -> & ->)%(run_cells w root s _ _ _ feature p).
  destruct (stored_for w root names p) as [r|] eqn:Hst; simpl;
    [|by intros [[? ?]|[[? ?]|[? ?]]]].
  intros _. apply stored_for_Some in Hst as [_ Hr].
  destruct (record_features w root p r Hr)
    as (file_A & file_B & df_A & df_B & Hf & HrA & HrB & HA & HB & HD).
  exists file_A, file_B, df_A, df_B. split_and!; try done.
  - apply HA.
  - apply HB.
  - intros Hd. destruct (HD feature Hd). split; [by apply HA|by apply HB].
Qed.

Lemma features_are_feature_columns_witness :
  exists file_A file_B df_A df_B,
    _find_patient_ab_files Examples.p004_world (path_join "data" "P004")
      = Ok (Some file_A, Some file_B) /\
    read_excel Examples.p004_world file_A = Ok df_A /\
    read_excel Examples.p004_world file_B = Ok df_B /\
    (is_Some (frame_at (from_dict_index (A_radiomics Examples.p004_final))
                "FeatA" "P004") ->
       exists k, 23 <= k /\ columns df_A !! k = Some "FeatA") /\
    (is_Some (frame_at (from_dict_index (B_radiomics Examples.p004_final))
                "FeatA" "P004") ->
       exists k, 23 <= k /\ columns df_B !! k = Some "FeatA") /\
    (is_Some (frame_at (from_dict_index (all_delta_radiomics Examples.p004_final))
                "FeatA" "P004") ->
       (exists k, 23 <= k /\ columns df_A !! k = Some "FeatA") /\
       (exists k, 23 <= k /\ columns df_B !! k = Some "FeatA")).
Proof.
  apply (features_are_feature_columns Examples.p004_world "data"
           Examples.p004_final).
  - vm_compute. reflexivity.
  - right. left. rewrite frame_at_from_dict_index. by eexists.
Defined.

(** X7. A sheet with at most 23 columns has no feature column.  A
    patient with both files, both loaded and both with a matching row,
    whose Time A sheet (or Time B sheet) is such a sheet is still a row
    key of the three tables, and its row holds no value in the Delta table
    and in the A table (or the B table). *)
Theorem short_sheet_gives_empty_row (w : World) (root : string)
    (names : list string) (s : RunState)
    (delta_df A_df B_df : Table) (p : string)
    (file_A file_B : string) (df_A df_B : DataFrame) (time_A : bool) :
  calculate_delta_radiomics w root = (s, Normal (delta_df, A_df, B_df)) ->
  listdir w root = Ok names -> p ∈ names ->
  isdir w (path_join root p) = true ->
  _find_patient_ab_files w (path_join root p) = Ok (Some file_A, Some file_B) ->
  read_excel w file_A = Ok df_A -> read_excel w file_B = Ok df_B ->
  has_column label_column df_A = true -> has_column label_column df_B = true ->
  has_tag_row w df_A -> has_tag_row w df_B ->
  length (columns (if time_A then df_A else df_B)) <= 23 ->
  p ∈ df_index delta_df /\ p ∈ df_index A_df /\ p ∈ df_index B_df /\
  df_row delta_df p = ∅ /\
  df_row (if time_A then A_df else B_df) p = ∅.
Proof.
  intros Hrun Hn Hp Hd Hf HrA HrB HcA HcB HtA HtB Hlen.
  assert (is_Some (stored_for w root names p)) as Hsome.
  { apply stored_for_is_Some. split_and!; try done.
    by exists file_A, file_B, df_A, df_B. }
  destruct (run_index w root s _ _ _ names p Hrun Hn) as (HiD & HiA & HiB).
  split; [by apply HiD|]. split; [by apply HiA|]. split; [by apply HiB|].
  clear HiD HiA HiB. destruct Hsome as [r Hst].
  apply run_returns in Hrun as (names' & Hn' & Hloop & -> & -> & ->).
  rewrite Hn in Hn'. injection Hn' as <-.
  destruct (run_dicts w root s names p Hn Hloop) as (HD & HA & HB).
  rewrite Hst in HD, HA, HB. simpl in HD, HA, HB.
  apply stored_for_Some in Hst as [_ Hr].
  destruct (record_features w root p r Hr)
    as (file_A' & file_B' & df_A' & df_B' & Hf' & HrA' & HrB' & HfA & HfB & HfD).
  rewrite Hf in Hf'. injection Hf' as <- <-.
  rewrite HrA in HrA'. injection HrA' as <-.
  rewrite HrB in HrB'. injection HrB' as <-.
  assert (forall (df : DataFrame) feature,
    length (columns df) <= 23 ->
    ~ (exists k, 23 <= k /\ columns df !! k = Some feature)) as Hshort.
  { intros df feature Hl (k & Hk & Hcol%lookup_lt_Some). lia. }
  assert (forall (m : gmap string float),
    (forall feature, ~ is_Some (m !! feature)) -> m = ∅) as Hempty.
  { intros m Hm. apply map_empty. intros feature.
    destruct (m !! feature) eqn:E; [|done]. exfalso. apply (Hm feature). by eexists. }
  destruct time_A.
  - rewrite !df_row_from_dict_index, HD, HA. simpl. split; apply Hempty.
    + intros feature [HsA _]%HfD. by apply (Hshort df_A feature Hlen), HfA.
    + intros feature HsA. by apply (Hshort df_A feature Hlen), HfA.
  - rewrite !df_row_from_dict_index, HD, HB. simpl. split; apply Hempty.
    + intros feature [_ HsB]%HfD. by apply (Hshort df_B feature Hlen), HfB.
    + intros feature HsB. by apply (Hshort df_B feature Hlen), HfB.
Qed.

Lemma short_sheet_gives_empty_row_witness :
  "P006" ∈ df_index (from_dict_index (all_delta_radiomics Examples.p006_final)) /\
  "P006" ∈ df_index (from_dict_index (A_radiomics Examples.p006_final)) /\
  "P006" ∈ df_index (from_dict_index (B_radiomics Examples.p006_final)) /\
  df_row (from_dict_index (all_delta_radiomics Examples.p006_final)) "P006" = ∅ /\
  df_row (from_dict_index (A_radiomics Examples.p006_final)) "P006" = ∅.
Proof.
  apply (short_sheet_gives_empty_row Examples.p006_world "data" ["P006"]
           Examples.p006_final _ _ _ "P006"
           "data/P006/P006_A.xlsx" "data/P006/P006_B.xlsx"
           Examples.p006_A Examples.p001_B true).
  - vm_compute. reflexivity.
  - reflexivity.
  - apply elem_of_cons. by left.
  - reflexivity.
  - reflexivity.
  - reflexivity.
  - reflexivity.
  - reflexivity.
  - reflexivity.
  - exists 0, (CStr "lesion_suv2.5" :: replicate 22 CNull). split_and!.
    + reflexivity.
    + apply elem_of_cons. by left.
    + reflexivity.
  - exists 0, (CStr "lesion_suv2.5" :: replicate 22 CNull ++ [CNum 3; CNum 5]).
    split_and!.
    + reflexivity.
    + apply elem_of_cons. by left.
    + reflexivity.
  - simpl. lia.
Defined.
(** ** Patients that are skipped inside the [try] block *)

Section Skips.

Context (w : World) (root : string).

(** An iteration over a folder with both files. *)
Lemma loop_body_both_spec (name file_A file_B : string) (s : RunState) :
  isdir w (path_join root name) = true ->
  _find_patient_ab_files w (path_join root name) = Ok (Some file_A, Some file_B) ->
  exists s' o,
    loop_body w root name s = (s', o) /\ o <> Raised /\
    dicts_after s name (patient_records w file_A file_B) s' /\
    warnings s' = warnings s /\
    excel_reads s' = excel_reads s ++ reads_of_try w file_A file_B.
Proof.
  intros Hd Hf. rewrite (loop_body_both w root name file_A file_B s Hd Hf).
  apply try_block_spec.
Qed.

(** A folder with both files whose extraction stores nothing. *)
Lemma skipped_in_try (name file_A file_B : string) :
  isdir w (path_join root name) = true ->
  _find_patient_ab_files w (path_join root name) = Ok (Some file_A, Some file_B) ->
  patient_records w file_A file_B = None ->
  (forall s, exists s' o,
     loop_body w root name s = (s', o) /\ o <> Raised /\
     all_delta_radiomics s' = all_delta_radiomics s /\
     A_radiomics s' = A_radiomics s /\ B_radiomics s' = B_radiomics s /\
     warnings s' = warnings s /\
     excel_reads s' = excel_reads s ++ reads_of_try w file_A file_B) /\
  (forall s delta_df A_df B_df,
     calculate_delta_radiomics w root = (s, Normal (delta_df, A_df, B_df)) ->
     ~ (name ∈ df_index delta_df) /\ ~ (name ∈ df_index A_df) /\
     ~ (name ∈ df_index B_df)).
Proof.
  intros Hd Hf Hrec. split.
  - intros s.
    destruct (loop_body_both_spec name file_A file_B s Hd Hf)
      as (s' & o & Hb & Ho & Hdicts & Hw & Hr).
    rewrite Hrec in Hdicts. destruct Hdicts as (? & ? & ?).
    by exists s', o.
  - intros s delta_df A_df B_df Hrun.
    apply (not_stored_not_in_tables w root name s); [done|].
    unfold patient_result, located_pair. by rewrite Hd, Hf.
Qed.

End Skips.

(** X8. A patient with both files, both of which load, is skipped without
    a warning when either sheet lacks the [Segmentation] column or has no
    row whose label matches the tag: the iteration ends without an
    exception after opening both spreadsheets, the dictionaries and the
    warnings are as before, and the patient is in none of the tables. *)
Theorem skip_without_selected_row (w : World) (root name : string)
    (file_A file_B : string) (df_A df_B : DataFrame) :
  isdir w (path_join root name) = true ->
  _find_patient_ab_files w (path_join root name) = Ok (Some file_A, Some file_B) ->
  read_excel w file_A = Ok df_A -> read_excel w file_B = Ok df_B ->
  has_column label_column df_A = false \/ has_column label_column df_B = false \/
  ~ has_tag_row w df_A \/ ~ has_tag_row w df_B ->
  (forall s, exists s' o,
     loop_body w root name s = (s', o) /\ o <> Raised /\
     all_delta_radiomics s' = all_delta_radiomics s /\
     A_radiomics s' = A_radiomics s /\ B_radiomics s' = B_radiomics s /\
     warnings s' = warnings s /\
     excel_reads s' = excel_reads s ++ [file_A; file_B]) /\
  (forall s delta_df A_df B_df,
     calculate_delta_radiomics w root = (s, Normal (delta_df, A_df, B_df)) ->
     ~ (name ∈ df_index delta_df) /\ ~ (name ∈ df_index A_df) /\
     ~ (name ∈ df_index B_df)).
Proof.
  intros Hd Hf HrA HrB Hcause.
  assert (reads_of_try w file_A file_B = [file_A; file_B]) as <-
    by (unfold reads_of_try; by rewrite HrA).
  apply skipped_in_try; try done.
  unfold patient_records. rewrite HrA, HrB.
  destruct (row_selector w df_A) as [row_A|] eqn:HsA; [|done].
  destruct (row_selector w df_B) as [row_B|] eqn:HsB; [|done].
  destruct (proj1 (row_selector_is_Some w df_A)) as [HcA HtA]; [by eexists|].
  destruct (proj1 (row_selector_is_Some w df_B)) as [HcB HtB]; [by eexists|].
  destruct Hcause as [?|[?|[?|?]]]; congruence || done.
Qed.

Lemma skip_without_selected_row_witness :
  (forall s, exists s' o,
     loop_body Examples.p007_world "data" "P007" s = (s', o) /\ o <> Raised /\
     all_delta_radiomics s' = all_delta_radiomics s /\
     A_radiomics s' = A_radiomics s /\ B_radiomics s' = B_radiomics s /\
     warnings s' = warnings s /\
     excel_reads s' = excel_reads s ++
       ["data/P007/P007_A.xlsx"; "data/P007/P007_B.xlsx"]) /\
  (forall s delta_df A_df B_df,
     calculate_delta_radiomics Examples.p007_world "data"
       = (s, Normal (delta_df, A_df, B_df)) ->
     ~ ("P007" ∈ df_index delta_df) /\ ~ ("P007" ∈ df_index A_df) /\
     ~ ("P007" ∈ df_index B_df)).
Proof.
  apply (skip_without_selected_row Examples.p007_world "data" "P007"
           "data/P007/P007_A.xlsx" "data/P007/P007_B.xlsx"
           Examples.p007_A Examples.p001_B).
  - reflexivity.
  - reflexivity.
  - reflexivity.
  - reflexivity.
  - right. right. left. intros (j & row & Hj & Hrow & Hm).
    injection Hj as <-.
    apply list_elem_of_In in Hrow. simpl in Hrow.
    destruct Hrow as [<-|[<-|[]]]; vm_compute in Hm; discriminate.
Defined.

(** X9. A patient whose Time A or Time B spreadsheet fails to load is
    skipped without a warning and without an exception: the dictionaries
    are as before and the patient is in none of the tables.  When the
    Time A file fails to load the Time B file is not opened. *)
Theorem skip_on_load_failure (w : World) (root name : string)
    (file_A file_B : string) :
  isdir w (path_join root name) = true ->
  _find_patient_ab_files w (path_join root name) = Ok (Some file_A, Some file_B) ->
  read_excel w file_A = Raise \/ read_excel w file_B = Raise ->
  (forall s, exists s' o,
     loop_body w root name s = (s', o) /\ o <> Raised /\
     all_delta_radiomics s' = all_delta_radiomics s /\
     A_radiomics s' = A_radiomics s /\ B_radiomics s' = B_radiomics s /\
     warnings s' = warnings s /\
     excel_reads s' = excel_reads s ++
       match read_excel w file_A with
       | Raise => [file_A]
       | Ok _ => [file_A; file_B]
       end) /\
  (forall s delta_df A_df B_df,
     calculate_delta_radiomics w root = (s, Normal (delta_df, A_df, B_df)) ->
     ~ (name ∈ df_index delta_df) /\ ~ (name ∈ df_index A_df) /\
     ~ (name ∈ df_index B_df)).
Proof.
  intros Hd Hf Hfail.
  change (match read_excel w file_A with
          | Ok _ => [file_A; file_B]
          | Raise => [file_A]
          end) with (reads_of_try w file_A file_B).
  apply skipped_in_try; try done.
  unfold patient_records.
  destruct Hfail as [-> | HB]; [done|].
  rewrite HB. by destruct (read_excel w file_A).
Qed.

Lemma skip_on_load_failure_witness :
  (forall s, exists s' o,
     loop_body Examples.corrupt_world "data" "P001" s = (s', o) /\ o <> Raised /\
     all_delta_radiomics s' = all_delta_radiomics s /\
     A_radiomics s' = A_radiomics s /\ B_radiomics s' = B_radiomics s /\
     warnings s' = warnings s /\
     excel_reads s' = excel_reads s ++
       match read_excel Examples.corrupt_world "data/P001/P001_A.xlsx" with
       | Raise => ["data/P001/P001_A.xlsx"]
       | Ok _ => ["data/P001/P001_A.xlsx"; "data/P001/P001_B.xlsx"]
       end) /\
  (forall s delta_df A_df B_df,
     calculate_delta_radiomics Examples.corrupt_world "data"
       = (s, Normal (delta_df, A_df, B_df)) ->
     ~ ("P001" ∈ df_index delta_df) /\ ~ ("P001" ∈ df_index A_df) /\
     ~ ("P001" ∈ df_index B_df)).
Proof.
  apply (skip_on_load_failure Examples.corrupt_world "data" "P001"
           "data/P001/P001_A.xlsx" "data/P001/P001_B.xlsx").
  - reflexivity.
  - reflexivity.
  - left. reflexivity.
Defined.

(** X10. At the end of a run the three dictionaries have the same keys,
    and a root entry is a key exactly when it is a directory for which the
    File Locator finds both files, both load, and both sheets have the
    [Segmentation] column and a row whose label matches the tag; whether
    any feature is a number plays no part. *)
Theorem stored_keys (w : World) (root : string) (names : list string)
    (s : RunState)
    (tables : Table * Table * Table) (p : string) :
  calculate_delta_radiomics w root = (s, Normal tables) ->
  listdir w root = Ok names ->
  dom (all_delta_radiomics s) = dom (A_radiomics s) /\
  dom (A_radiomics s) = dom (B_radiomics s) /\
  (p ∈ dom (all_delta_radiomics s) <->
   p ∈ names /\ isdir w (path_join root p) = true /\
   exists file_A file_B df_A df_B,
     _find_patient_ab_files w (path_join root p) = Ok (Some file_A, Some file_B) /\
     read_excel w file_A = Ok df_A /\ read_excel w file_B = Ok df_B /\
     has_column label_column df_A = true /\ has_column label_column df_B = true /\
     has_tag_row w df_A /\ has_tag_row w df_B).
Proof.
  destruct tables as [[delta_df A_df] B_df].
  intros (names' & Hn' & Hloop & _)%run_returns Hn.
  rewrite Hn in Hn'. injection Hn' as <-.
  pose proof (fun q => run_dicts w root s names q Hn Hloop) as Hd.
  split_and!.
  - apply set_eq. intros q. rewrite !elem_of_dom.
    destruct (Hd q) as (-> & -> & _). by rewrite !fmap_is_Some.
  - apply set_eq. intros q. rewrite !elem_of_dom.
    destruct (Hd q) as (_ & -> & ->). by rewrite !fmap_is_Some.
  - destruct (Hd p) as (HD & _ & _).
    rewrite elem_of_dom, HD, fmap_is_Some. apply stored_for_is_Some.
Qed.

Lemma stored_keys_witness :
  dom (all_delta_radiomics Examples.mixed_final)
    = dom (A_radiomics Examples.mixed_final) /\
  dom (A_radiomics Examples.mixed_final)
    = dom (B_radiomics Examples.mixed_final) /\
  ("P004" ∈ dom (all_delta_radiomics Examples.mixed_final) <->
   "P004" ∈ ["P004"; "P002"; "P001"] /\
   isdir Examples.mixed_world (path_join "data" "P004") = true /\
   exists file_A file_B df_A df_B,
     _find_patient_ab_files Examples.mixed_world (path_join "data" "P004")
       = Ok (Some file_A, Some file_B) /\
     read_excel Examples.mixed_world file_A = Ok df_A /\
     read_excel Examples.mixed_world file_B = Ok df_B /\
     has_column label_column df_A = true /\ has_column label_column df_B = true /\
     has_tag_row Examples.mixed_world df_A /\ has_tag_row Examples.mixed_world df_B).
Proof.
  apply (stored_keys Examples.mixed_world "data" ["P004"; "P002"; "P001"]
           Examples.mixed_final
           (from_dict_index (all_delta_radiomics Examples.mixed_final),
            from_dict_index (A_radiomics Examples.mixed_final),
            from_dict_index (B_radiomics Examples.mixed_final))).
  - vm_compute. reflexivity.
  - reflexivity.
Defined.

(** ** More on the File Locator *)

Section Slots.

Lemma startswith_sep_contains (f : string) :
  PyStr.contains "/" f = false -> PyStr.startswith f "/" = false.
Proof.
  destruct f as [|c f]; [done|]. cbn [PyStr.contains].
  by intros [? _]%orb_false_iff.
Qed.

(** Entries without a separator are joined to the folder injectively. *)
Lemma path_join_inj (p f f' : string) :
  PyStr.contains "/" f = false -> PyStr.contains "/" f' = false ->
  path_join p f = path_join p f' -> f = f'.
Proof.
  intros Hf Hf'. unfold path_join.
  rewrite (startswith_sep_contains f Hf), (startswith_sep_contains f' Hf').
  destruct (String.eqb p "" || PyStr.endswith p "/").
  - apply String.app_inj.
  - intros H%String.app_inj. by apply (String.app_inj "/") in H.
Qed.

Lemma located_candidate (p : string) (names : list string) (c : string) :
  ((find_in_listing p names).1 = Some c ->
     exists f, f ∈ names /\ c = path_join p f /\ time_A_candidate f = true) /\
  ((find_in_listing p names).2 = Some c ->
     exists f, f ∈ names /\ c = path_join p f /\ time_B_candidate f = true).
Proof.
  rewrite find_in_listing_eq, scan_entries_spec. simpl.
  split; intros [(f & -> & [? ?]%list_elem_of_filter)%list_elem_of_fmap _]%first_sorted_least;
    by exists f.
Qed.

End Slots.

(** X11. A path the File Locator returns is the join of the folder with
    one of its entries, a Time A candidate for the first slot and a Time B
    candidate for the second; when no entry name holds a separator, the
    two slots never hold the same file. *)
Theorem located_files_are_entries (w : World) (patient_path : string)
    (names : list string) (file_A file_B : option string) :
  listdir w patient_path = Ok names ->
  _find_patient_ab_files w patient_path = Ok (file_A, file_B) ->
  (forall c, file_A = Some c ->
     exists f, f ∈ names /\ c = path_join patient_path f /\
       time_A_candidate f = true) /\
  (forall c, file_B = Some c ->
     exists f, f ∈ names /\ c = path_join patient_path f /\
       time_B_candidate f = true) /\
  (Forall (fun f => PyStr.contains "/" f = false) names ->
   forall a b, file_A = Some a -> file_B = Some b -> a <> b).
Proof.
  unfold _find_patient_ab_files. intros -> [= Hfind].
  assert (forall c, file_A = Some c ->
     exists f, f ∈ names /\ c = path_join patient_path f /\
       time_A_candidate f = true) as HA.
  { intros c ->. apply (located_candidate patient_path names c). by rewrite Hfind. }
  assert (forall c, file_B = Some c ->
     exists f, f ∈ names /\ c = path_join patient_path f /\
       time_B_candidate f = true) as HB.
  { intros c ->. apply (located_candidate patient_path names c). by rewrite Hfind. }
  split_and!; try done.
  intros Hsep a b Ha Hb Heq. subst b.
  destruct (HA a Ha) as (f & Hf & Hjoin & HfA).
  destruct (HB a Hb) as (f' & Hf' & Hjoin' & HfB).
  rewrite Forall_forall in Hsep.
  assert (f = f') as <-.
  { apply (path_join_inj patient_path); [by apply Hsep..|congruence]. }
  unfold time_A_candidate, time_B_candidate in *.
  destruct (eligible f), (PyStr.contains "_A" (PyStr.upper f)); done.
Qed.

Lemma located_files_are_entries_witness :
  (forall c, Some "data/P001/P001_A.xlsx" = Some c ->
     exists f, f ∈ ["P001_B.xlsx"; "P001_A.xlsx"; "P001_A.XLSX"] /\
       c = path_join "data/P001" f /\ time_A_candidate f = true) /\
  (forall c, Some "data/P001/P001_B.xlsx" = Some c ->
     exists f, f ∈ ["P001_B.xlsx"; "P001_A.xlsx"; "P001_A.XLSX"] /\
       c = path_join "data/P001" f /\ time_B_candidate f = true) /\
  (Forall (fun f => PyStr.contains "/" f = false)
     ["P001_B.xlsx"; "P001_A.xlsx"; "P001_A.XLSX"] ->
   forall a b, Some "data/P001/P001_A.xlsx" = Some a ->
     Some "data/P001/P001_B.xlsx" = Some b -> a <> b).
Proof.
  apply (located_files_are_entries
           (Examples.p001_world Examples.no_text_numbers Examples.no_numeric_labels)
           "data/P001").
  - reflexivity.
  - reflexivity.
Defined.

(** X12. When the folder can be listed the File Locator does not raise,
    and a slot is empty exactly when no entry is a candidate for it. *)
Theorem empty_slot_iff_no_candidate (w : World) (patient_path : string)
    (names : list string) :
  listdir w patient_path = Ok names ->
  exists file_A file_B,
    _find_patient_ab_files w patient_path = Ok (file_A, file_B) /\
    (file_A = None <-> forall f, f ∈ names -> time_A_candidate f = false) /\
    (file_B = None <-> forall f, f ∈ names -> time_B_candidate f = false).
Proof.
  intros Hl. unfold _find_patient_ab_files. rewrite Hl.
  rewrite find_in_listing_eq, scan_entries_spec. simpl.
  eexists _, _. split; [done|].
  rewrite !first_sorted_None. split.
  - by rewrite <- (filter_true_nil (path_join patient_path) time_A_candidate names).
  - by rewrite <- (filter_true_nil (path_join patient_path) time_B_candidate names).
Qed.

Lemma empty_slot_iff_no_candidate_witness :
  exists file_A file_B,
    _find_patient_ab_files Examples.p002_world "data/P002" = Ok (file_A, file_B) /\
    (file_A = None <->
       forall f, f ∈ ["P002_A.xlsx"] -> time_A_candidate f = false) /\
    (file_B = None <->
       forall f, f ∈ ["P002_A.xlsx"] -> time_B_candidate f = false).
Proof.
  apply (empty_slot_iff_no_candidate Examples.p002_world "data/P002"
           ["P002_A.xlsx"]).
  reflexivity.
Defined.

(** ** The tag test in full *)

Lemma search_iff (p : list Re.atom) (s : string) :
  Re.search p s = true <->
  exists pre rest, s = pre +:+ rest /\ Re.match_here p rest = true.
Proof.
  induction s as [|c s IH]; cbn [Re.search].
  - rewrite orb_false_r. split.
    + intros H. by exists "", "".
    + intros (pre & rest & Heq & H). by destruct pre, rest.
  - rewrite orb_true_iff, IH. split.
    + intros [H|(pre & rest & -> & H)].
      * by exists "", (String c s).
      * by exists (String c pre), rest.
    + intros ([|d pre] & rest & Heq & H).
      * left. change ("" +:+ rest) with rest in Heq. by subst rest.
      * right. rewrite append_cons in Heq. injection Heq as <- ->.
        by exists pre, rest.
Qed.

(** X13. The label of a row matches exactly when its text holds, somewhere,
    the four characters [suv2], then any one character but a newline, then
    the character [5]: upper-case letters do not match, and the dot of the
    tag stands for any character. *)
Theorem label_matches_iff (w : World) (c : Cell) :
  label_matches w c = true <->
  exists pre x post,
    astype_str w c = pre +:+ "suv2" +:+ String x ("5" +:+ post) /\
    x <> "010"%char.
Proof.
  unfold label_matches, str_contains. rewrite search_iff. split.
  - intros (pre & rest & -> & H). exists pre.
    destruct rest as [|c1 [|c2 [|c3 [|c4 [|c5 [|c6 post]]]]]]; simpl in H;
      try done; try (by rewrite ?andb_false_r in H).
    repeat (apply andb_true_iff in H as [?%Ascii.eqb_eq H] || apply andb_true_iff in H as [? H]).
    subst. exists c5, post. split; [done|].
    intros ->. done.
  - intros (pre & x & post & -> & Hx). exists pre, ("suv2" +:+ String x ("5" +:+ post)).
    split; [done|]. simpl. rewrite andb_true_r.
    by apply negb_true_iff, Ascii.eqb_neq.
Qed.

(** * The plotting script *)

Section PlotFloats.

Lemma SFltb_irrefl (x : spec_float) : SFltb x x = false.
Proof.
  destruct x as [s|s| |s m e]; unfold SFltb, SFcompare; try (by destruct s).
  - reflexivity.
  - rewrite Z.compare_refl, Pos.compare_cont_refl. by destruct s.
Qed.

Lemma SFltb_trans (x y z : spec_float) :
  SFltb x y = true -> SFltb y z = true -> SFltb x z = true.
Proof.
  unfold SFltb.
  destruct x as [sx|sx| |sx mx ex], y as [sy|sy| |sy my ey], z as [sz|sz| |sz mz ez];
    simpl; try discriminate; try reflexivity;
    try (destruct sx; simpl; try discriminate; try reflexivity);
    try (destruct sy; simpl; try discriminate; try reflexivity);
    try (destruct sz; simpl; try discriminate; try reflexivity).
  all: change (Pos.compare_cont Eq ?a ?b) with (Pos.compare a b).
  all: destruct (Z.compare_spec ex ey), (Z.compare_spec ey ez), (Z.compare_spec ex ez);
    try discriminate; try reflexivity; try lia; subst.
  all: destruct (Pos.compare_spec mx my), (Pos.compare_spec my mz), (Pos.compare_spec mx mz);
    simpl; try discriminate; try reflexivity; try lia.
Qed.

Lemma float_ltb_irrefl (x : float) : (x <? x)%float = false.
Proof. rewrite FloatAxioms.ltb_spec. apply SFltb_irrefl. Qed.

Lemma float_ltb_trans (x y z : float) :
  (x <? y)%float = true -> (y <? z)%float = true -> (x <? z)%float = true.
Proof. rewrite !FloatAxioms.ltb_spec. apply SFltb_trans. Qed.

Lemma float_eqb_refl (x : float) : is_nan x = false -> (x =? x)%float = true.
Proof. unfold is_nan. by destruct (x =? x)%float. Qed.

End PlotFloats.

Section PlotBasics.

Import Plots.

Lemma fold_max_in (l : list float) (v : float) :
  fold_left (fun m item => if (m <? item)%float then item else m) l v ∈ v :: l.
Proof.
  revert v. induction l as [|a l IH]; intros v; simpl; [by left|].
  destruct (v <? a)%float.
  - right. apply IH.
  - specialize (IH v). apply elem_of_cons in IH as [->|IH]; [by left|].
    by right; right.
Qed.

Lemma fold_max_upper (l : list float) (v : float) (seen : list float) :
  (forall u, u ∈ seen -> (v <? u)%float = false) ->
  (v <? v)%float = false ->
  forall u, u ∈ seen ++ v :: l ->
    (fold_left (fun m item => if (m <? item)%float then item else m) l v <? u)%float
      = false.
Proof.
  revert v seen. induction l as [|a l IH]; intros v seen Hseen Hv u Hu; simpl.
  - apply elem_of_app in Hu as [Hu|Hu%list_elem_of_singleton];
      [by apply Hseen|by subst].
  - destruct (v <? a)%float eqn:Hva.
    + apply (IH a (seen ++ [v])).
      * intros u' Hu'. destruct (a <? u')%float eqn:Hau; [|done].
        pose proof (float_ltb_trans v a u' Hva Hau) as Hvu.
        apply elem_of_app in Hu' as [Hu'|Hu'%list_elem_of_singleton].
        -- by rewrite (Hseen u' Hu') in Hvu.
        -- subst u'. by rewrite Hv in Hvu.
      * apply float_ltb_irrefl.
      * by rewrite <- app_assoc.
    + apply (IH v (seen ++ [a])).
      * intros u' [Hu'|Hu'%list_elem_of_singleton]%elem_of_app;
          [by apply Hseen|by subst].
      * done.
      * apply elem_of_app in Hu as [Hu|Hu]; apply elem_of_app.
        -- left. apply elem_of_app. by left.
        -- apply elem_of_cons in Hu as [->|Hu]; [right; by left|].
           apply elem_of_cons in Hu as [->|Hu].
           ++ left. apply elem_of_app. right. by left.
           ++ right. by right.
Qed.

(** [max] returns a value of the list, and no value of the list is
    greater. *)
Lemma py_max_spec (l : list float) (m : float) :
  py_max l = Val m -> m ∈ l /\ forall u, u ∈ l -> (m <? u)%float = false.
Proof.
  destruct l as [|v l]; [done|]. intros [= <-]. split.
  - apply fold_max_in.
  - intros u Hu. apply (fold_max_upper l v []); [by intros ? ?%elem_of_nil| |done].
    apply float_ltb_irrefl.
Qed.

End PlotBasics.

Section PlotLoops.

Import Plots.

Lemma map_res_Val_inv {A B : Type} (f : A -> res B) (l : list A) (ys : list B) :
  map_res f l = Val ys -> Forall2 (fun a y => f a = Val y) l ys.
Proof.
  revert ys. induction l as [|a l IH]; intros ys; simpl.
  - intros [= <-]. constructor.
  - unfold mbind, res_bind. destruct (f a) as [b|] eqn:Hb; [|done].
    destruct (map_res f l) as [bs|]; [|done].
    intros [= <-]. constructor; [done|by apply IH].
Qed.

Lemma map_res_exn {A B : Type} (f : A -> res B) (l : list A) (e : exn) :
  map_res f l = Exn e -> exists a, a ∈ l /\ f a = Exn e.
Proof.
  induction l as [|a l IH]; simpl; [done|].
  unfold mbind, res_bind. destruct (f a) as [b|e'] eqn:Hb.
  - destruct (map_res f l) as [bs|e']; [done|].
    intros [= <-]. destruct IH as (a' & Ha' & He); [done|].
    exists a'. split; [by right|done].
  - intros [= <-]. exists a. split; [by left|done].
Qed.

(** The first loop raises nothing but [KeyError] and [IndexError]. *)
Lemma compute_local_maxes_exn (data_dict : gmap string (list float)) (e : exn) :
  compute_local_maxes data_dict = Exn e -> key_or_index e.
Proof.
  intros (j & _ & Hj)%map_res_exn. unfold mbind, res_bind in Hj.
  destruct (current_tick_values data_dict j) as [col|e'] eqn:Hcol.
  - apply map_res_Val_inv in Hcol.
    destruct col as [|v col]; [by inversion Hcol|done].
  - injection Hj as <-. apply map_res_exn in Hcol as (m & _ & Hm).
    unfold mbind, res_bind, dict_get, list_get in Hm.
    destruct (data_dict !! m) as [vs|]; [|left; congruence].
    destruct (vs !! j); [done|right; congruence].
Qed.

(** When the first loop ends, there is one maximum per dataset and every
    model has at least one value per dataset. *)
Lemma compute_local_maxes_Val (data_dict : gmap string (list float))
    (local_maxes : list float) :
  compute_local_maxes data_dict = Val local_maxes ->
  length local_maxes = length datasets /\
  forall m, m ∈ models ->
    exists values, data_dict !! m = Some values /\
      length datasets <= length values.
Proof.
  intros H%map_res_Val_inv. split.
  - apply Forall2_length in H. by rewrite <- H.
  - intros m Hm.
    assert (exists lm, (vals ← current_tick_values data_dict 3; py_max vals) = Val lm)
      as [lm Hlm].
    { apply (Forall2_lookup_l _ _ _ 3 3) in H as (lm & _ & Hlm); [|done].
      by exists lm. }
    unfold mbind, res_bind in Hlm.
    destruct (current_tick_values data_dict 3) as [col|] eqn:Hcol; [|done].
    apply map_res_Val_inv in Hcol.
    apply list_elem_of_lookup in Hm as [i Hi].
    apply (Forall2_lookup_l _ _ _ i m) in Hcol as (v & _ & Hv); [|done].
    unfold mbind, res_bind, dict_get, list_get in Hv.
    destruct (data_dict !! m) as [vs|]; [|done].
    exists vs. split; [done|].
    destruct (vs !! 3) eqn:Hvs; [|done].
    apply lookup_lt_Some in Hvs. simpl. lia.
Qed.

Lemma draws_ret {A : Type} (P : Call -> Prop) (Q : exn -> Prop) (a : A) :
  draws P Q (mret a : Fig A).
Proof. intros t. exists []. by rewrite app_nil_r. Qed.

Lemma draws_eval {A : Type} (P : Call -> Prop) (Q : exn -> Prop) (r : res A) :
  (forall e, r = Exn e -> Q e) -> draws P Q (eval r).
Proof. intros Hr t. exists []. by rewrite app_nil_r. Qed.

Lemma draws_emit (P : Call -> Prop) (Q : exn -> Prop) (c : Call) :
  P c -> draws P Q (emit c).
Proof. intros Hc t. exists [c]. split_and!; [done|by constructor|done]. Qed.

Lemma draws_bind {A B : Type} (P : Call -> Prop) (Q : exn -> Prop)
    (m : Fig A) (f : A -> Fig B) :
  draws P Q m -> (forall a, draws P Q (f a)) -> draws P Q (m ≫= f).
Proof.
  intros Hm Hf t. unfold mbind, Fig_bind.
  destruct (Hm t) as (new & Ht & Hnew & He).
  destruct (m t) as [t1 [a|e]]; simpl in *; subst t1.
  - destruct (Hf a (t ++ new)) as (new' & Ht' & Hnew' & He').
    exists (new ++ new'). rewrite app_assoc. split_and!; [done| |done].
    apply Forall_app. by split.
  - exists new. split_and!; [done|done|]. intros e' [= <-]. by apply He.
Qed.

Lemma draws_for_enum {A : Type} (P : Call -> Prop) (Q : exn -> Prop)
    (body : nat -> A -> Fig unit) (start : nat) (l : list A) :
  (forall k a, draws P Q (body k a)) -> draws P Q (for_enum body start l).
Proof.
  intros Hbody. revert start. induction l as [|a l IH]; intros start; simpl.
  - apply draws_ret.
  - apply draws_bind; [apply Hbody|]. intros _. apply IH.
Qed.

Lemma list_get_exn {A : Type} (l : list A) (i : nat) (e : exn) :
  list_get l i = Exn e -> key_or_index e.
Proof. unfold list_get. destruct (l !! i); [done|]. intros [= <-]. by right. Qed.

Lemma dict_get_exn (d : gmap string (list float)) (k : string) (e : exn) :
  dict_get d k = Exn e -> key_or_index e.
Proof. unfold dict_get. destruct (d !! k); [done|]. intros [= <-]. by left. Qed.

(** The second loop only draws bars and labels, and raises nothing but
    [KeyError] and [IndexError]. *)
Lemma draw_model_draws (fmt : float -> string)
    (data_dict : gmap string (list float)) (local_maxes : list float)
    (i : nat) (model : string) :
  draws bar_or_text key_or_index (draw_model fmt data_dict local_maxes i model).
Proof.
  unfold draw_model. apply draws_bind; [apply draws_eval, dict_get_exn|].
  intros values. apply draws_for_enum. intros j val. unfold draw_value.
  repeat (apply draws_bind; [first [apply draws_eval, list_get_exn|by apply draws_emit]|intros ?]).
  by apply draws_emit.
Qed.

Lemma fig_bind_Val {A B : Type} (m : Fig A) (f : A -> Fig B) (t : list Call)
    (b : B) :
  ((m ≫= f) t).2 = Val b ->
  exists a t1, m t = (t1, Val a) /\ (f a t1).2 = Val b.
Proof.
  unfold mbind, Fig_bind. destruct (m t) as [t1 [a|e]]; [|done].
  intros H. by exists a, t1.
Qed.

Lemma for_enum_Val_inv {A : Type} (body : nat -> A -> Fig unit) (start : nat)
    (l : list A) (t : list Call) :
  (for_enum body start l t).2 = Val tt ->
  forall k a, l !! k = Some a -> exists t1, (body (start + k) a t1).2 = Val tt.
Proof.
  revert start t. induction l as [|a l IH]; intros start t H k a' Hk; [done|].
  simpl in H. apply fig_bind_Val in H as ([] & t1 & Ha & Hrest).
  destruct k as [|k]; simpl in Hk.
  - injection Hk as <-. exists t. by rewrite Nat.add_0_r, Ha.
  - destruct (IH _ _ Hrest k a' Hk) as [t2 Ht2]. exists t2.
    by rewrite Nat.add_succ_r.
Qed.

(** When the bars of a model are all drawn, the model has at most one
    value per local maximum. *)
Lemma draw_model_Val (fmt : float -> string)
    (data_dict : gmap string (list float)) (local_maxes : list float)
    (i : nat) (model : string) (t : list Call) :
  (draw_model fmt data_dict local_maxes i model t).2 = Val tt ->
  exists values, data_dict !! model = Some values /\
    length values <= length local_maxes.
Proof.
  unfold draw_model. intros (values & t1 & Hv & Hloop)%fig_bind_Val.
  unfold eval, dict_get in Hv.
  destruct (data_dict !! model) as [vs|]; [|done].
  injection Hv as <- <-. exists vs. split; [done|].
  destruct (decide (length vs <= length local_maxes)) as [|Hlong]; [done|].
  destruct (lookup_lt_is_Some_2 vs (length local_maxes)) as [val Hval]; [lia|].
  destruct (for_enum_Val_inv _ _ _ _ Hloop _ _ Hval) as [t2 Ht2].
  unfold draw_value in Ht2. apply fig_bind_Val in Ht2 as (lm & t3 & Hlm & _).
  unfold eval, list_get in Hlm.
  rewrite (lookup_ge_None_2 local_maxes) in Hlm by (simpl; lia). done.
Qed.

(** The function, phase by phase. *)
Lemma create_unfold (fmt : float -> string) (metric_name : string)
    (data_dict : gmap string (list float)) (filename : string) :
  create_publication_quality_plot fmt metric_name data_dict filename [] =
    match compute_local_maxes data_dict with
    | Exn e => ([Subplots 15 8], Exn e)
    | Val local_maxes =>
        match for_enum (draw_model fmt data_dict local_maxes) 0 models
                [Subplots 15 8] with
        | (t, Exn e) => (t, Exn e)
        | (t, Val _) => (t ++ closing_calls metric_name filename, Val tt)
        end
    end.
Proof.
  unfold create_publication_quality_plot, mbind, Fig_bind, emit, eval.
  cbn [app]. destruct (compute_local_maxes data_dict) as [local_maxes|e]; [|done].
  destruct (for_enum _ 0 models [Subplots 15 8]) as [t [[]|e]]; [|done].
  cbn. unfold mbind, Fig_bind, mret, Fig_ret. cbn.
  rewrite <- !app_assoc. reflexivity.
Qed.

End PlotLoops.

Section PlotRun.

Import Plots.

Context (fmt : float -> string).

Lemma map_res_total {A B : Type} (f : A -> res B) (l : list A) :
  (forall a, a ∈ l -> exists b, f a = Val b) -> exists ys, map_res f l = Val ys.
Proof.
  induction l as [|a l IH]; intros H; simpl; [by eexists|].
  destruct (H a) as [b Hb]; [by left|].
  destruct IH as [ys Hys]; [intros a' Ha'; apply H; by right|].
  unfold mbind, res_bind. rewrite Hb, Hys. by eexists.
Qed.

(** On well-shaped data the first loop ends. *)
Lemma compute_local_maxes_total (data_dict : gmap string (list float)) :
  well_shaped data_dict -> exists lms, compute_local_maxes data_dict = Val lms.
Proof.
  intros Hw. apply map_res_total. intros j Hj%elem_of_seq.
  destruct (map_res_total
              (fun m => values ← dict_get data_dict m; list_get values j) models)
    as [col Hcol].
  { intros m Hm. destruct (Hw m Hm) as (vs & Hvs & Hlen).
    unfold mbind, res_bind, dict_get, list_get. rewrite Hvs.
    destruct (lookup_lt_is_Some_2 vs j) as [v ->]; [lia|]. by eexists. }
  unfold current_tick_values. rewrite Hcol. unfold mbind, res_bind.
  apply map_res_Val_inv in Hcol.
  destruct col as [|v col]; [by inversion Hcol|]. by eexists.
Qed.

(** One bar and its label, when the indices are in range. *)
Lemma draw_value_Val_trace (local_maxes : list float) (i j : nat)
    (offset val lm : float) (c : string) (t : list Call) :
  local_maxes !! j = Some lm -> colors !! i = Some c -> j < length datasets ->
  draw_value fmt local_maxes i offset j val t =
    (t ++ [Bar (of_int j + offset) val width c
             (if (val =? lm)%float then 1.0%float else 0.30%float)
             (if (val =? lm)%float then "black" else "none") 2.0;
           Text (of_int j + offset) (val + 0.015) (fmt val)
             (if (val =? lm)%float then 1.0%float else 0.7%float)
             (if (val =? lm)%float then "bold" else "normal")],
     Val tt).
Proof.
  intros Hlm Hc Hj.
  unfold draw_value, mbind, Fig_bind, eval, emit, list_get.
  rewrite Hlm, Hc. unfold x. rewrite lookup_seq_lt by done. simpl.
  by rewrite <- app_assoc.
Qed.

Lemma for_enum_total {A : Type} (body : nat -> A -> Fig unit) (start : nat)
    (l : list A) (t : list Call) :
  (forall k a t1, l !! k = Some a -> (body (start + k) a t1).2 = Val tt) ->
  (for_enum body start l t).2 = Val tt.
Proof.
  revert start t. induction l as [|a l IH]; intros start t H; [done|].
  simpl. unfold mbind, Fig_bind.
  pose proof (H 0 a t eq_refl) as Ha. rewrite Nat.add_0_r in Ha.
  destruct (body start a t) as [t1 [[]|]]; [|done].
  apply IH. intros k a' t2 Hk. rewrite Nat.add_succ_l, <- Nat.add_succ_r.
  by apply H.
Qed.

(** On well-shaped data the second loop ends. *)
Lemma draw_models_total (data_dict : gmap string (list float))
    (local_maxes : list float) (t : list Call) :
  well_shaped data_dict -> length local_maxes = length datasets ->
  (for_enum (draw_model fmt data_dict local_maxes) 0 models t).2 = Val tt.
Proof.
  intros Hw Hlen. apply for_enum_total. intros i model t1 Hi.
  destruct (Hw model) as (vs & Hvs & Hvlen); [by eapply list_elem_of_lookup_2|].
  unfold draw_model, mbind, Fig_bind, eval, dict_get. rewrite Hvs.
  apply for_enum_total. intros j val t2 Hj.
  assert (j < length datasets) as Hlt by (apply lookup_lt_Some in Hj; lia).
  destruct (lookup_lt_is_Some_2 local_maxes j) as [lm Hlm]; [lia|].
  destruct (lookup_lt_is_Some_2 colors i) as [c Hc].
  { apply lookup_lt_Some in Hi. exact Hi. }
  by rewrite (draw_value_Val_trace _ _ _ _ _ lm c _ Hlm Hc Hlt).
Qed.

(** The outcome of a call: either the data are well shaped, the function
    returns and the calls are the figure, bars and labels, and the closing
    calls; or they are not, and it raises after the figure and some bars
    and labels. *)
Lemma create_cases (metric_name : string)
    (data_dict : gmap string (list float)) (filename : string) :
  (well_shaped data_dict /\
   exists drawn,
     Forall bar_or_text drawn /\
     create_publication_quality_plot fmt metric_name data_dict filename [] =
       (Subplots 15 8 :: drawn ++ closing_calls metric_name filename, Val tt)) \/
  (~ well_shaped data_dict /\
   exists drawn e,
     Forall bar_or_text drawn /\ key_or_index e /\
     create_publication_quality_plot fmt metric_name data_dict filename [] =
       (Subplots 15 8 :: drawn, Exn e)).
Proof.
  rewrite create_unfold.
  destruct (compute_local_maxes data_dict) as [lms|e] eqn:Hlms.
  - destruct (compute_local_maxes_Val _ _ Hlms) as [Hlen Hmin].
    destruct (draws_for_enum bar_or_text key_or_index
                (draw_model fmt data_dict lms) 0 models
                (fun k a => draw_model_draws fmt data_dict lms k a)
                [Subplots 15 8]) as (drawn & Ht & Hdrawn & He).
    destruct (for_enum _ 0 models [Subplots 15 8]) as [t [[]|e]] eqn:Hloop;
      simpl in Ht, He; subst t.
    + left. split; [|by exists drawn].
      intros m Hm. destruct (Hmin m Hm) as (vs & Hvs & Hge).
      exists vs. split; [done|].
      apply list_elem_of_lookup in Hm as [i Hi].
      assert ((for_enum (draw_model fmt data_dict lms) 0 models
                 [Subplots 15 8]).2 = Val tt) as Hval by (by rewrite Hloop).
      destruct (for_enum_Val_inv _ _ _ _ Hval i m Hi) as [t1 Ht1].
      apply draw_model_Val in Ht1 as (vs' & Hvs' & Hle).
      rewrite Hvs in Hvs'. injection Hvs' as <-. lia.
    + right. split.
      * intros Hw. pose proof (draw_models_total data_dict lms [Subplots 15 8] Hw Hlen) as Hv.
        by rewrite Hloop in Hv.
      * exists drawn, e. split_and!; [done|by apply He|done].
  - right. split.
    + intros Hw. destruct (compute_local_maxes_total data_dict Hw). congruence.
    + exists [], e. split_and!; [done|by eapply compute_local_maxes_exn|done].
Qed.

(** A call that is made in an iteration that is reached stays in the
    final sequence of calls. *)
Lemma for_enum_elem {A : Type} (P : Call -> Prop) (Q : exn -> Prop)
    (body : nat -> A -> Fig unit) (start : nat) (l : list A) (t : list Call)
    (k : nat) (a : A) (c : Call) :
  (forall k a, draws P Q (body k a)) ->
  (for_enum body start l t).2 = Val tt ->
  l !! k = Some a ->
  (forall t1, (body (start + k) a t1).2 = Val tt -> c ∈ (body (start + k) a t1).1) ->
  c ∈ (for_enum body start l t).1.
Proof.
  intros Hdraws. revert start t k.
  induction l as [|a0 l IH]; intros start t k Hval Hk Hc; [done|].
  simpl in *. unfold mbind, Fig_bind in *.
  destruct (body start a0 t) as [t1 [[]|]] eqn:Hb; [|done].
  destruct k as [|k]; simpl in Hk.
  - injection Hk as ->. rewrite Nat.add_0_r in Hc.
    specialize (Hc t). rewrite Hb in Hc. specialize (Hc eq_refl). simpl in Hc.
    destruct (draws_for_enum P Q body (S start) l Hdraws t1) as (new & -> & _).
    apply elem_of_app. by left.
  - apply (IH (S start) t1 k Hval Hk). intros t2.
    rewrite Nat.add_succ_l, <- Nat.add_succ_r. apply Hc.
Qed.

End PlotRun.

(** X14. [create_publication_quality_plot] returns exactly when every
    model of [models] is a key of the data with exactly one value per
    dataset (further keys are ignored); otherwise it raises [KeyError] or
    [IndexError], never another exception. *)
Theorem plot_returns_iff_well_shaped (fmt : float -> string)
    (metric_name : string) (data_dict : gmap string (list float))
    (filename : string) :
  ((Plots.create_publication_quality_plot fmt metric_name data_dict filename []).2
     = Plots.Val tt <-> Plots.well_shaped data_dict) /\
  forall e,
    (Plots.create_publication_quality_plot fmt metric_name data_dict filename []).2
      = Plots.Exn e ->
    e = Plots.KeyError \/ e = Plots.IndexError.
Proof.
  destruct (create_cases fmt metric_name data_dict filename)
    as [[Hw (drawn & _ & ->)]|[Hw (drawn & e & _ & He & ->)]]; simpl.
  - split; [done|]. by intros e [=].
  - split; [by split|]. by intros e' [= <-].
Qed.

(** X15. The figure is saved, and closed, exactly when the function
    returns: when it raises it has made no call but the creation of the
    figure and some bars and labels. *)
Theorem plot_saved_iff_returns (fmt : float -> string)
    (metric_name : string) (data_dict : gmap string (list float))
    (filename : string) :
  (Plots.SaveFig filename 300 ∈
     (Plots.create_publication_quality_plot fmt metric_name data_dict filename []).1
   <->
   (Plots.create_publication_quality_plot fmt metric_name data_dict filename []).2
     = Plots.Val tt) /\
  (Plots.Close ∈
     (Plots.create_publication_quality_plot fmt metric_name data_dict filename []).1
   <->
   (Plots.create_publication_quality_plot fmt metric_name data_dict filename []).2
     = Plots.Val tt) /\
  forall e,
    (Plots.create_publication_quality_plot fmt metric_name data_dict filename []).2
      = Plots.Exn e ->
    exists drawn,
      (Plots.create_publication_quality_plot fmt metric_name data_dict filename []).1
        = Plots.Subplots 15 8 :: drawn /\
      Forall Plots.bar_or_text drawn.
Proof.
  destruct (create_cases fmt metric_name data_dict filename)
    as [[Hw (drawn & Hd & ->)]|[Hw (drawn & e & Hd & He & ->)]]; simpl.
  - split_and!.
    + split; [done|]. intros _. right. apply elem_of_app. right.
      unfold Plots.closing_calls. do 11 right. by left.
    + split; [done|]. intros _. right. apply elem_of_app. right.
      unfold Plots.closing_calls. do 12 right. by left.
    + by intros e [=].
  - rewrite Forall_forall in Hd. split_and!.
    + split; [|done]. intros [[=]|Hin]%elem_of_cons. by apply Hd in Hin.
    + split; [|done]. intros [[=]|Hin]%elem_of_cons. by apply Hd in Hin.
    + intros e' _. exists drawn. by rewrite Forall_forall.
Qed.

(** X16. On well-shaped data, for every dataset: the local maximum is a
    value of the dataset's column and no value of the column is greater;
    each value of the column is drawn as a bar at its model's offset, with
    full opacity and a black edge exactly when it equals the local maximum
    (ties included) and faded without edge otherwise; and when no value of
    the column is NaN at least one bar of the column is highlighted. *)
Theorem column_winner_highlighted (fmt : float -> string)
    (metric_name : string) (data_dict : gmap string (list float))
    (filename : string) (j : nat) :
  Plots.well_shaped data_dict -> j < length Plots.datasets ->
  exists col lm,
    Plots.current_tick_values data_dict j = Plots.Val col /\
    Plots.py_max col = Plots.Val lm /\
    lm ∈ col /\
    (forall v, v ∈ col -> (lm <? v)%float = false) /\
    (forall i model c values val,
       Plots.models !! i = Some model -> Plots.colors !! i = Some c ->
       data_dict !! model = Some values -> values !! j = Some val ->
       Plots.Bar (Plots.of_int j + (Plots.of_int i - 1.5) * Plots.width) val
         Plots.width c
         (if (val =? lm)%float then 1.0%float else 0.30%float)
         (if (val =? lm)%float then "black" else "none") 2.0
       ∈ (Plots.create_publication_quality_plot fmt metric_name data_dict
            filename []).1) /\
    (Forall (fun v => is_nan v = false) col ->
     exists i model c values,
       Plots.models !! i = Some model /\ Plots.colors !! i = Some c /\
       data_dict !! model = Some values /\ values !! j = Some lm /\
       Plots.Bar (Plots.of_int j + (Plots.of_int i - 1.5) * Plots.width) lm
         Plots.width c 1.0 "black" 2.0
       ∈ (Plots.create_publication_quality_plot fmt metric_name data_dict
            filename []).1).
Proof.
  intros Hw Hj.
  destruct (compute_local_maxes_total data_dict Hw) as [lms Hlms].
  destruct (compute_local_maxes_Val _ _ Hlms) as [Hlen _].
  pose proof (map_res_Val_inv _ _ _ Hlms) as Hall.
  apply (Forall2_lookup_l _ _ _ j j) in Hall as (lm & Hlm & Hcol);
    [|by apply lookup_seq_lt].
  unfold mbind, Plots.res_bind in Hcol.
  destruct (Plots.current_tick_values data_dict j) as [col|] eqn:Hcolj; [|done].
  destruct (py_max_spec col lm Hcol) as [Hin Hupper].
  exists col, lm. do 4 (split; [done|]).
  assert (forall i model c values val,
       Plots.models !! i = Some model -> Plots.colors !! i = Some c ->
       data_dict !! model = Some values -> values !! j = Some val ->
       Plots.Bar (Plots.of_int j + (Plots.of_int i - 1.5) * Plots.width) val
         Plots.width c
         (if (val =? lm)%float then 1.0%float else 0.30%float)
         (if (val =? lm)%float then "black" else "none") 2.0
       ∈ (Plots.create_publication_quality_plot fmt metric_name data_dict
            filename []).1) as Hbars.
  { intros i model c values val Hi Hc Hvalues Hval.
    rewrite create_unfold, Hlms.
    pose proof (draw_models_total fmt data_dict lms [Plots.Subplots 15 8] Hw Hlen)
      as Hloop.
    assert (Plots.Bar (Plots.of_int j + (Plots.of_int i - 1.5) * Plots.width) val
              Plots.width c
              (if (val =? lm)%float then 1.0%float else 0.30%float)
              (if (val =? lm)%float then "black" else "none") 2.0
            ∈ (Plots.for_enum (Plots.draw_model fmt data_dict lms) 0 Plots.models
                 [Plots.Subplots 15 8]).1) as Hbar.
    { apply (for_enum_elem Plots.bar_or_text Plots.key_or_index _ 0 _ _ i model);
        [apply draw_model_draws|done|done|].
      intros t1. simpl.
      unfold Plots.draw_model, mbind, Plots.Fig_bind, Plots.eval, Plots.dict_get.
      rewrite Hvalues. intros Hinner.
      apply (for_enum_elem Plots.bar_or_text Plots.key_or_index _ 0 _ _ j val);
        [|done|done|].
      - intros k a. unfold Plots.draw_value.
        repeat (apply draws_bind;
                [first [apply draws_eval, list_get_exn|by apply draws_emit]|intros ?]).
        by apply draws_emit.
      - intros t2 _. simpl.
        rewrite (draw_value_Val_trace fmt lms i j _ val lm c t2 Hlm Hc Hj).
        simpl. apply elem_of_app. right. by left. }
    destruct (Plots.for_enum _ 0 Plots.models [Plots.Subplots 15 8])
      as [t [[]|]]; [|done].
    simpl in Hbar |- *. apply elem_of_app. by left. }
  split; [exact Hbars|].
  intros Hnan.
  apply list_elem_of_lookup in Hin as [i Hi].
  pose proof (map_res_Val_inv _ _ _ Hcolj) as Hmodels.
  apply (Forall2_lookup_r _ _ _ i lm) in Hmodels as (model & Hmodel & Hget); [|done].
  unfold mbind, Plots.res_bind, Plots.dict_get, Plots.list_get in Hget.
  destruct (data_dict !! model) as [values|] eqn:Hvalues; [|done].
  destruct (values !! j) as [val|] eqn:Hval; [|done].
  injection Hget as ->.
  destruct (lookup_lt_is_Some_2 Plots.colors i) as [c Hc].
  { apply lookup_lt_Some in Hmodel. exact Hmodel. }
  exists i, model, c, values. split_and!; try done.
  pose proof (Hbars i model c values lm Hmodel Hc Hvalues Hval) as Hbar.
  rewrite float_eqb_refl in Hbar; [done|].
  rewrite Forall_forall in Hnan. apply Hnan. by eapply list_elem_of_lookup_2.
Qed.

Lemma column_winner_highlighted_witness :
  exists col lm,
    Plots.current_tick_values Plots.accuracy_data 1 = Plots.Val col /\
    Plots.py_max col = Plots.Val lm /\ lm ∈ col /\
    Plots.Bar (Plots.of_int 1 + (Plots.of_int 1 - 1.5) * Plots.width) 0.833
      Plots.width "#ff7f0e"
      (if (0.833 =? lm)%float then 1.0%float else 0.30%float)
      (if (0.833 =? lm)%float then "black" else "none") 2.0
    ∈ (Plots.create_publication_quality_plot (fun _ => "") "Test Accuracy"
         Plots.accuracy_data "final_accuracy.png" []).1.
Proof.
  destruct (column_winner_highlighted (fun _ => "") "Test Accuracy"
              Plots.accuracy_data "final_accuracy.png" 1)
    as (col & lm & Hcol & Hmax & Hin & _ & Hbars & _).
  - intros m Hm. unfold Plots.models in Hm.
    repeat (apply elem_of_cons in Hm as [->|Hm]);
      [by eexists..|by apply elem_of_nil in Hm].
  - simpl. lia.
  - exists col, lm. split_and!; try done.
    by apply (Hbars 1 "Random Forest" "#ff7f0e"
                [0.667; 0.833; 0.333; 0.833]%float 0.833%float).
Defined.
